(** * Text-Finder: a shallow embedding of [Text-finder.py] and its properties

    The program walks a directory tree, searches plain-text files and PDF
    files for a literal phrase (case-insensitively) and prints a report.

    Conventions of the embedding.
    - A Python [str] is a [string]; a character is a code point in the range
      U+0000..U+00FF, on which [str.lower], [str.isspace] and the line
      boundaries of [str.splitlines] are written out as Python defines them.
      The matcher is modelled a second time on strings of arbitrary code
      points, in [Uni], with the case tables of [re]; the matcher [Re] of
      the search functions is its restriction to U+0000..U+00FF.
    - Python integers are [Z].
    - A result dictionary is the record [occurrence]; the optional key
      ['page_number'] is an [option Z].
    - The file system, the [pdftotext] tool and the PyPDF2 reader are the
      fields of a [world]; what the program writes to standard output is a
      list of [output] events.
    - A function that can end in an exception returns an [option]; [None]
      is the exception nothing catches. *)

From Stdlib Require Import Bool Arith NArith ZArith Lia List.
From Stdlib Require Import Ascii String DecimalString.
From Stdlib Require Import Sorting.Sorted Sorting.Permutation.
Import ListNotations.

Open Scope bool_scope.
Open Scope string_scope.
Open Scope list_scope.

(** ** Characters and strings *)

Module Str.

Definition code (c : ascii) : N := N_of_ascii c.

Definition between (lo hi : N) (c : ascii) : bool :=
  (lo <=? code c)%N && (code c <=? hi)%N.

(** [str.lower] on one code point: A-Z, and the Latin-1 capitals
    U+00C0..U+00DE except the multiplication sign U+00D7. *)
Definition lower_char (c : ascii) : ascii :=
  if between 65 90 c || (between 192 222 c && negb (code c =? 215)%N)
  then ascii_of_N (code c + 32)
  else c.

Fixpoint lower (s : string) : string :=
  match s with
  | EmptyString => EmptyString
  | String c s' => String (lower_char c) (lower s')
  end.

(** [str.isspace] on one code point. *)
Definition is_space (c : ascii) : bool :=
  between 9 13 c || between 28 32 c || (code c =? 133)%N || (code c =? 160)%N.

Fixpoint all_space (s : string) : bool :=
  match s with
  | EmptyString => true
  | String c s' => is_space c && all_space s'
  end.

Fixpoint lstrip (s : string) : string :=
  match s with
  | EmptyString => EmptyString
  | String c s' => if is_space c then lstrip s' else s
  end.

Fixpoint rstrip (s : string) : string :=
  match s with
  | EmptyString => EmptyString
  | String c s' => if all_space s then EmptyString else String c (rstrip s')
  end.

(** [s.strip()] *)
Definition strip (s : string) : string := rstrip (lstrip s).

(** [s.startswith(p)] *)
Fixpoint startswith (p s : string) : bool :=
  match p, s with
  | EmptyString, _ => true
  | String a p', String b s' => (a =? b)%char && startswith p' s'
  | String _ _, EmptyString => false
  end.

(** [s.endswith(p)] *)
Fixpoint endswith (p s : string) : bool :=
  (s =? p) || match s with
              | EmptyString => false
              | String _ s' => endswith p s'
              end.

(** The line boundaries of [str.splitlines] below U+0100: LF, VT, FF, CR,
    FS, GS, RS and NEL; CR LF counts as one boundary. *)
Definition is_linebreak (c : ascii) : bool :=
  between 10 13 c || between 28 30 c || (code c =? 133)%N.

Fixpoint splitlines_from (cur : string) (s : string) : list string :=
  match s with
  | EmptyString => if (cur =? EmptyString) then [] else [cur]
  | String c s' =>
      if is_linebreak c then
        match s' with
        | String d s'' =>
            if (code c =? 13)%N && (code d =? 10)%N
            then cur :: splitlines_from EmptyString s''
            else cur :: splitlines_from EmptyString s'
        | EmptyString => [cur]
        end
      else splitlines_from (cur ++ String c EmptyString)%string s'
  end.

(** [s.splitlines()] *)
Definition splitlines (s : string) : list string :=
  splitlines_from EmptyString s.

(** [needle in haystack] for strings, stated as a proposition. *)
Definition contains (haystack needle : string) : Prop :=
  exists pre post : string, haystack = (pre ++ (needle ++ post))%string.

End Str.

(** ** The fragment of [re] the program uses

    Both search functions build their pattern with
    [re.compile(re.escape(phrase), re.IGNORECASE)] and test lines with
    [pattern.search(line)].  The pattern language is modelled far enough to
    tell a literal from a metacharacter: literals, backslash escapes, [.],
    and the postfix repeats [*], [+] and [?].  Groups, classes, counted
    repeats, alternation and anchors are outside the fragment, and so are
    the escapes that start a class or a back-reference; [compile] answers
    [None] on them. *)

Module Re.

Definition chr (n : N) : ascii := ascii_of_N n.

(** [_special_chars_map] of [re.escape]:
    the bytes of [()[]{}?*+-|^$\.&~# \t\n\r\v\f]. *)
Definition special_chars : list ascii :=
  (list_ascii_of_string "()[]{}?*+-|^$\.&~# "
     ++ [chr 9; chr 10; chr 13; chr 11; chr 12])%list.

Definition is_special (c : ascii) : bool :=
  existsb (Ascii.eqb c) special_chars.

(** [re.escape(pattern)]: a backslash before every special character. *)
Fixpoint escape (s : string) : string :=
  match s with
  | EmptyString => EmptyString
  | String c s' =>
      if is_special c then String "\" (String c (escape s'))
      else String c (escape s')
  end.

Definition is_ascii_alnum (c : ascii) : bool :=
  Str.between 48 57 c || Str.between 65 90 c || Str.between 97 122 c.

Inductive token : Type :=
| TChar (c : ascii)
| TDot
| TStar
| TPlus
| TQuest.

(** Metacharacters whose constructs are outside the fragment. *)
Definition is_unsupported (c : ascii) : bool :=
  existsb (Ascii.eqb c) (list_ascii_of_string "()[{|^$").

Fixpoint lex (s : string) : option (list token) :=
  match s with
  | EmptyString => Some []
  | String c rest =>
      if (c =? "\")%char then
        match rest with
        | EmptyString => None
        | String d rest' =>
            if is_ascii_alnum d then None
            else option_map (cons (TChar d)) (lex rest')
        end
      else if (c =? ".")%char then option_map (cons TDot) (lex rest)
      else if (c =? "*")%char then option_map (cons TStar) (lex rest)
      else if (c =? "+")%char then option_map (cons TPlus) (lex rest)
      else if (c =? "?")%char then option_map (cons TQuest) (lex rest)
      else if is_unsupported c then None
      else option_map (cons (TChar c)) (lex rest)
  end.

Inductive atom : Type :=
| Lit (c : ascii)
| AnyChar.

Inductive item : Type :=
| Once (a : atom)
| Star (a : atom)
| Plus (a : atom)
| Opt (a : atom).

Definition atom_of (t : token) : option atom :=
  match t with
  | TChar c => Some (Lit c)
  | TDot => Some AnyChar
  | TStar | TPlus | TQuest => None
  end.

(** Attach each repeat to the atom before it; a repeat with nothing to
    repeat, or a second repeat in a row, is rejected. *)
Fixpoint group (ts : list token) : option (list item) :=
  match ts with
  | [] => Some []
  | t :: ts' =>
      match atom_of t with
      | None => None
      | Some a =>
          match ts' with
          | TStar :: ts'' => option_map (cons (Star a)) (group ts'')
          | TPlus :: ts'' => option_map (cons (Plus a)) (group ts'')
          | TQuest :: ts'' => option_map (cons (Opt a)) (group ts'')
          | _ => option_map (cons (Once a)) (group ts')
          end
      end
  end.

Record pattern : Type := mkPattern {
  items : list item;
  ignorecase : bool
}.

(** [re.compile(source, flags)], with [re.IGNORECASE] as the only flag. *)
Definition compile (source : string) (IGNORECASE : bool) : option pattern :=
  match lex source with
  | None => None
  | Some ts =>
      match group ts with
      | None => None
      | Some its => Some (mkPattern its IGNORECASE)
      end
  end.

(** One pattern character against one subject character.  Under
    [IGNORECASE] two code points below U+0100 match when their lowercase
    forms agree - which is what the comparison of [re] comes to on that
    range, see [Uni.atom_ok] for all code points; [.] matches anything but
    a newline. *)
Definition atom_ok (ic : bool) (a : atom) (c : ascii) : bool :=
  match a with
  | Lit p => if ic then (Str.lower_char p =? Str.lower_char c)%char
             else (p =? c)%char
  | AnyChar => negb (Str.code c =? 10)%N
  end.

(** Does the pattern match a prefix of the subject? *)
Fixpoint match_here (ic : bool) (p : list item) : string -> bool :=
  match p with
  | [] => fun _ => true
  | Once a :: p' =>
      fun s =>
        match s with
        | String c s' => atom_ok ic a c && match_here ic p' s'
        | EmptyString => false
        end
  | Star a :: p' =>
      fix star (s : string) : bool :=
        match_here ic p' s
        || match s with
           | String c s' => atom_ok ic a c && star s'
           | EmptyString => false
           end
  | Plus a :: p' =>
      fun s =>
        match s with
        | String c s' =>
            atom_ok ic a c
            && (fix star (s : string) : bool :=
                  match_here ic p' s
                  || match s with
                     | String c s' => atom_ok ic a c && star s'
                     | EmptyString => false
                     end) s'
        | EmptyString => false
        end
  | Opt a :: p' =>
      fun s =>
        match_here ic p' s
        || match s with
           | String c s' => atom_ok ic a c && match_here ic p' s'
           | EmptyString => false
           end
  end.

(** [pattern.search(subject)], as the truth value of the match object. *)
Fixpoint search (p : pattern) (subject : string) : bool :=
  match_here (ignorecase p) (items p) subject
  || match subject with
     | String _ s' => search p s'
     | EmptyString => false
     end.

End Re.

(** The two lines that open [search_text_files] and [_search_single_pdf]:
    [pattern = re.compile(re.escape(phrase), re.IGNORECASE)]. *)
Definition compile_phrase (phrase : string) : option Re.pattern :=
  Re.compile (Re.escape phrase) true.

(** [pattern.search(line)] for the pattern of a phrase; [None] would be a
    phrase that [re.compile] rejects. *)
Definition matches (line phrase : string) : option bool :=
  match compile_phrase phrase with
  | Some p => Some (Re.search p line)
  | None => None
  end.

(** The pattern a phrase compiles to: its characters, one after another. *)
Definition literal_items (phrase : string) : list Re.item :=
  map (fun c => Re.Once (Re.Lit c)) (list_ascii_of_string phrase).

Definition literal_pattern (phrase : string) : Re.pattern :=
  Re.mkPattern (literal_items phrase) true.

(** ** The matcher on code points

    The lines of a file opened as UTF-8 and the phrase typed by the user
    are strings of Unicode code points, and [re.IGNORECASE] compares them
    with the case data of the whole Unicode database.  This module models
    that: a string is a list of code points, and the three tables below are
    the ones the [re] module of CPython 3.11 (Unicode 14.0) uses, written
    as ranges - [_sre.unicode_tolower], [_sre.unicode_iscased] and
    [re._casefix._EXTRA_CASES].  The pattern fragment is that of [Re]. *)

Module Uni.

Definition str : Type := list N.

(** A string of the model above, read as the code points it stands for. *)
Definition of_string (s : string) : str :=
  map N_of_ascii (list_ascii_of_string s).

(** Is [c] one of [first], [first + step], ..., [last]? *)
Definition in_range (c first last step : N) : bool :=
  if (first <=? c)%N then
    if (c <=? last)%N then ((c - first) mod step =? 0)%N else false
  else false.

(** The simple lowercase mapping: [(first, last, step, delta)] sends each
    code point of the range to itself plus [delta]. *)
Definition tolower_ranges : list (N * N * N * Z) :=
  [
   (65, 90, 1, 32%Z); (192, 214, 1, 32%Z); (216, 222, 1, 32%Z);
   (256, 302, 2, 1%Z); (304, 304, 1, (-199)%Z); (306, 310, 2, 1%Z);
   (313, 327, 2, 1%Z); (330, 374, 2, 1%Z); (376, 376, 1, (-121)%Z);
   (377, 381, 2, 1%Z); (385, 385, 1, 210%Z); (386, 388, 2, 1%Z);
   (390, 390, 1, 206%Z); (391, 391, 1, 1%Z); (393, 394, 1, 205%Z);
   (395, 395, 1, 1%Z); (398, 398, 1, 79%Z); (399, 399, 1, 202%Z);
   (400, 400, 1, 203%Z); (401, 401, 1, 1%Z); (403, 403, 1, 205%Z);
   (404, 404, 1, 207%Z); (406, 406, 1, 211%Z); (407, 407, 1, 209%Z);
   (408, 408, 1, 1%Z); (412, 412, 1, 211%Z); (413, 413, 1, 213%Z);
   (415, 415, 1, 214%Z); (416, 420, 2, 1%Z); (422, 422, 1, 218%Z);
   (423, 423, 1, 1%Z); (425, 425, 1, 218%Z); (428, 428, 1, 1%Z);
   (430, 430, 1, 218%Z); (431, 431, 1, 1%Z); (433, 434, 1, 217%Z);
   (435, 437, 2, 1%Z); (439, 439, 1, 219%Z); (440, 440, 1, 1%Z);
   (444, 444, 1, 1%Z); (452, 452, 1, 2%Z); (453, 453, 1, 1%Z);
   (455, 455, 1, 2%Z); (456, 456, 1, 1%Z); (458, 458, 1, 2%Z);
   (459, 475, 2, 1%Z); (478, 494, 2, 1%Z); (497, 497, 1, 2%Z);
   (498, 500, 2, 1%Z); (502, 502, 1, (-97)%Z); (503, 503, 1, (-56)%Z);
   (504, 542, 2, 1%Z); (544, 544, 1, (-130)%Z); (546, 562, 2, 1%Z);
   (570, 570, 1, 10795%Z); (571, 571, 1, 1%Z); (573, 573, 1, (-163)%Z);
   (574, 574, 1, 10792%Z); (577, 577, 1, 1%Z); (579, 579, 1, (-195)%Z);
   (580, 580, 1, 69%Z); (581, 581, 1, 71%Z); (582, 590, 2, 1%Z);
   (880, 882, 2, 1%Z); (886, 886, 1, 1%Z); (895, 895, 1, 116%Z);
   (902, 902, 1, 38%Z); (904, 906, 1, 37%Z); (908, 908, 1, 64%Z);
   (910, 911, 1, 63%Z); (913, 929, 1, 32%Z); (931, 939, 1, 32%Z);
   (975, 975, 1, 8%Z); (984, 1006, 2, 1%Z); (1012, 1012, 1, (-60)%Z);
   (1015, 1015, 1, 1%Z); (1017, 1017, 1, (-7)%Z); (1018, 1018, 1, 1%Z);
   (1021, 1023, 1, (-130)%Z); (1024, 1039, 1, 80%Z); (1040, 1071, 1, 32%Z);
   (1120, 1152, 2, 1%Z); (1162, 1214, 2, 1%Z); (1216, 1216, 1, 15%Z);
   (1217, 1229, 2, 1%Z); (1232, 1326, 2, 1%Z); (1329, 1366, 1, 48%Z);
   (4256, 4293, 1, 7264%Z); (4295, 4295, 1, 7264%Z);
   (4301, 4301, 1, 7264%Z);
   (5024, 5103, 1, 38864%Z); (5104, 5109, 1, 8%Z);
   (7312, 7354, 1, (-3008)%Z);
   (7357, 7359, 1, (-3008)%Z); (7680, 7828, 2, 1%Z);
   (7838, 7838, 1, (-7615)%Z);
   (7840, 7934, 2, 1%Z); (7944, 7951, 1, (-8)%Z); (7960, 7965, 1, (-8)%Z);
   (7976, 7983, 1, (-8)%Z); (7992, 7999, 1, (-8)%Z); (8008, 8013, 1, (-8)%Z);
   (8025, 8031, 2, (-8)%Z); (8040, 8047, 1, (-8)%Z); (8072, 8079, 1, (-8)%Z);
   (8088, 8095, 1, (-8)%Z); (8104, 8111, 1, (-8)%Z); (8120, 8121, 1, (-8)%Z);
   (8122, 8123, 1, (-74)%Z); (8124, 8124, 1, (-9)%Z); (8136, 8139, 1, (-86)%Z);
   (8140, 8140, 1, (-9)%Z); (8152, 8153, 1, (-8)%Z); (8154, 8155, 1, (-100)%Z);
   (8168, 8169, 1, (-8)%Z); (8170, 8171, 1, (-112)%Z); (8172, 8172, 1, (-7)%Z);
   (8184, 8185, 1, (-128)%Z); (8186, 8187, 1, (-126)%Z);
   (8188, 8188, 1, (-9)%Z);
   (8486, 8486, 1, (-7517)%Z); (8490, 8490, 1, (-8383)%Z);
   (8491, 8491, 1, (-8262)%Z);
   (8498, 8498, 1, 28%Z); (8544, 8559, 1, 16%Z); (8579, 8579, 1, 1%Z);
   (9398, 9423, 1, 26%Z); (11264, 11311, 1, 48%Z); (11360, 11360, 1, 1%Z);
   (11362, 11362, 1, (-10743)%Z); (11363, 11363, 1, (-3814)%Z);
   (11364, 11364, 1, (-10727)%Z);
   (11367, 11371, 2, 1%Z); (11373, 11373, 1, (-10780)%Z);
   (11374, 11374, 1, (-10749)%Z);
   (11375, 11375, 1, (-10783)%Z); (11376, 11376, 1, (-10782)%Z);
   (11378, 11378, 1, 1%Z);
   (11381, 11381, 1, 1%Z); (11390, 11391, 1, (-10815)%Z);
   (11392, 11490, 2, 1%Z);
   (11499, 11501, 2, 1%Z); (11506, 11506, 1, 1%Z); (42560, 42604, 2, 1%Z);
   (42624, 42650, 2, 1%Z); (42786, 42798, 2, 1%Z); (42802, 42862, 2, 1%Z);
   (42873, 42875, 2, 1%Z); (42877, 42877, 1, (-35332)%Z);
   (42878, 42886, 2, 1%Z);
   (42891, 42891, 1, 1%Z); (42893, 42893, 1, (-42280)%Z);
   (42896, 42898, 2, 1%Z);
   (42902, 42920, 2, 1%Z); (42922, 42922, 1, (-42308)%Z);
   (42923, 42923, 1, (-42319)%Z);
   (42924, 42924, 1, (-42315)%Z); (42925, 42925, 1, (-42305)%Z);
   (42926, 42926, 1, (-42308)%Z);
   (42928, 42928, 1, (-42258)%Z); (42929, 42929, 1, (-42282)%Z);
   (42930, 42930, 1, (-42261)%Z);
   (42931, 42931, 1, 928%Z); (42932, 42946, 2, 1%Z);
   (42948, 42948, 1, (-48)%Z);
   (42949, 42949, 1, (-42307)%Z); (42950, 42950, 1, (-35384)%Z);
   (42951, 42953, 2, 1%Z);
   (42960, 42960, 1, 1%Z); (42966, 42968, 2, 1%Z); (42997, 42997, 1, 1%Z);
   (65313, 65338, 1, 32%Z); (66560, 66599, 1, 40%Z);
   (66736, 66771, 1, 40%Z);
   (66928, 66938, 1, 39%Z); (66940, 66954, 1, 39%Z);
   (66956, 66962, 1, 39%Z);
   (66964, 66965, 1, 39%Z); (68736, 68786, 1, 64%Z);
   (71840, 71871, 1, 32%Z);
   (93760, 93791, 1, 32%Z); (125184, 125217, 1, 34%Z)
  ]%N.

Fixpoint lookup_delta (c : N) (ranges : list (N * N * N * Z)) : Z :=
  match ranges with
  | [] => 0%Z
  | (first, last, step, delta) :: rest =>
      if in_range c first last step then delta else lookup_delta c rest
  end.

(** [_sre.unicode_tolower] *)
Definition unicode_tolower (c : N) : N :=
  Z.to_N (Z.of_N c + lookup_delta c tolower_ranges).

(** The code points that differ from their lowercase or their uppercase
    form: [(first, last, step)]. *)
Definition cased_ranges : list (N * N * N) :=
  [
   (65, 90, 1); (97, 122, 1); (181, 181, 1); (192, 214, 1);
   (216, 246, 1); (248, 311, 1); (313, 396, 1); (398, 410, 1);
   (412, 425, 1); (428, 441, 1); (444, 445, 1); (447, 447, 1);
   (452, 544, 1); (546, 563, 1); (570, 596, 1); (598, 599, 1);
   (601, 603, 2); (604, 604, 1); (608, 609, 1); (611, 613, 2);
   (614, 616, 2); (617, 620, 1); (623, 625, 2); (626, 626, 1);
   (629, 629, 1); (637, 637, 1); (640, 642, 2); (643, 643, 1);
   (647, 652, 1); (658, 658, 1); (669, 670, 1); (837, 837, 1);
   (880, 883, 1); (886, 887, 1); (891, 893, 1); (895, 895, 1);
   (902, 904, 2); (905, 906, 1); (908, 910, 2); (911, 929, 1);
   (931, 977, 1); (981, 1013, 1); (1015, 1019, 1); (1021, 1153, 1);
   (1162, 1327, 1); (1329, 1366, 1); (1377, 1415, 1); (4256, 4293, 1);
   (4295, 4295, 1); (4301, 4301, 1); (4304, 4346, 1); (4349, 4351, 1);
   (5024, 5109, 1); (5112, 5117, 1); (7296, 7304, 1); (7312, 7354, 1);
   (7357, 7359, 1); (7545, 7545, 1); (7549, 7549, 1); (7566, 7566, 1);
   (7680, 7835, 1); (7838, 7840, 2); (7841, 7957, 1); (7960, 7965, 1);
   (7968, 8005, 1); (8008, 8013, 1); (8016, 8023, 1); (8025, 8031, 2);
   (8032, 8061, 1); (8064, 8116, 1); (8118, 8124, 1); (8126, 8126, 1);
   (8130, 8132, 1); (8134, 8140, 1); (8144, 8147, 1); (8150, 8155, 1);
   (8160, 8172, 1); (8178, 8180, 1); (8182, 8188, 1); (8486, 8486, 1);
   (8490, 8491, 1); (8498, 8498, 1); (8526, 8526, 1); (8544, 8575, 1);
   (8579, 8580, 1); (9398, 9449, 1); (11264, 11376, 1); (11378, 11379, 1);
   (11381, 11382, 1); (11390, 11491, 1); (11499, 11502, 1); (11506, 11507, 1);
   (11520, 11557, 1); (11559, 11559, 1); (11565, 11565, 1); (42560, 42605, 1);
   (42624, 42651, 1); (42786, 42799, 1); (42802, 42863, 1); (42873, 42887, 1);
   (42891, 42893, 1); (42896, 42900, 1); (42902, 42926, 1); (42928, 42954, 1);
   (42960, 42961, 1); (42966, 42969, 1); (42997, 42998, 1); (43859, 43859, 1);
   (43888, 43967, 1); (64256, 64262, 1); (64275, 64279, 1); (65313, 65338, 1);
   (65345, 65370, 1); (66560, 66639, 1); (66736, 66771, 1); (66776, 66811, 1);
   (66928, 66938, 1); (66940, 66954, 1); (66956, 66962, 1); (66964, 66965, 1);
   (66967, 66977, 1); (66979, 66993, 1); (66995, 67001, 1); (67003, 67004, 1);
   (68736, 68786, 1); (68800, 68850, 1); (71840, 71903, 1); (93760, 93823, 1);
   (125184, 125251, 1)
  ]%N.

(** [_sre.unicode_iscased] *)
Definition unicode_iscased (c : N) : bool :=
  existsb (fun r => let '(first, last, step) := r in
                    in_range c first last step)
    cased_ranges.

(** [re._casefix._EXTRA_CASES]: lowercase code points that match further
    lowercase code points. *)
Definition EXTRA_CASES : list (N * list N) :=
  [
   (105, [305]); (115, [383]); (181, [956]);
   (305, [105]); (383, [115]); (837, [953; 8126]);
   (912, [8147]); (944, [8163]); (946, [976]);
   (949, [1013]); (952, [977]); (953, [837; 8126]);
   (954, [1008]); (956, [181]); (960, [982]);
   (961, [1009]); (962, [963]); (963, [962]);
   (966, [981]); (976, [946]); (977, [952]);
   (981, [966]); (982, [960]); (1008, [954]);
   (1009, [961]); (1013, [949]); (1074, [7296]);
   (1076, [7297]); (1086, [7298]); (1089, [7299]);
   (1090, [7300; 7301]); (1098, [7302]); (1123, [7303]);
   (7296, [1074]); (7297, [1076]); (7298, [1086]);
   (7299, [1089]); (7300, [1090; 7301]); (7301, [1090; 7300]);
   (7302, [1098]); (7303, [1123]); (7304, [42571]);
   (7777, [7835]); (7835, [7777]); (8126, [837; 953]);
   (8147, [912]); (8163, [944]); (42571, [7304]);
   (64261, [64262]); (64262, [64261])
  ]%N.

Fixpoint dict_find (d : list (N * list N)) (key : N) : option (list N) :=
  match d with
  | [] => None
  | (k, v) :: d' => if (k =? key)%N then Some v else dict_find d' key
  end.

(** [re.escape]: the special characters are those of [Re]. *)
Definition special_chars : list N := map N_of_ascii Re.special_chars.

Definition is_special (c : N) : bool := existsb (N.eqb c) special_chars.

Fixpoint escape (s : str) : str :=
  match s with
  | [] => []
  | c :: s' =>
      if is_special c then 92%N :: c :: escape s' else c :: escape s'
  end.

Definition between (lo hi c : N) : bool := (lo <=? c)%N && (c <=? hi)%N.

Definition is_ascii_alnum (c : N) : bool :=
  between 48 57 c || between 65 90 c || between 97 122 c.

Inductive token : Type :=
| TChar (c : N)
| TDot
| TStar
| TPlus
| TQuest.

Definition is_unsupported (c : N) : bool :=
  existsb (N.eqb c) (of_string "()[{|^$").

Fixpoint lex (s : str) : option (list token) :=
  match s with
  | [] => Some []
  | c :: rest =>
      if (c =? 92)%N then
        match rest with
        | [] => None
        | d :: rest' =>
            if is_ascii_alnum d then None
            else option_map (cons (TChar d)) (lex rest')
        end
      else if (c =? 46)%N then option_map (cons TDot) (lex rest)
      else if (c =? 42)%N then option_map (cons TStar) (lex rest)
      else if (c =? 43)%N then option_map (cons TPlus) (lex rest)
      else if (c =? 63)%N then option_map (cons TQuest) (lex rest)
      else if is_unsupported c then None
      else option_map (cons (TChar c)) (lex rest)
  end.

(** What the compiler emits for one character. *)
Inductive atom : Type :=
| Literal (c : N)
| LiteralUniIgnore (lo : N)
| InUniIgnore (chars : list N)
| AnyChar.

(** The branch of [_compile] for a literal [av]. *)
Definition compile_literal (IGNORECASE : bool) (av : N) : atom :=
  if negb IGNORECASE then Literal av
  else if negb (unicode_iscased av) then Literal av
  else
    let lo := unicode_tolower av in
    match dict_find EXTRA_CASES lo with
    | None => LiteralUniIgnore lo
    | Some fixes => InUniIgnore (lo :: fixes)
    end.

Inductive item : Type :=
| Once (a : atom)
| Star (a : atom)
| Plus (a : atom)
| Opt (a : atom).

Definition atom_of (ic : bool) (t : token) : option atom :=
  match t with
  | TChar c => Some (compile_literal ic c)
  | TDot => Some AnyChar
  | TStar | TPlus | TQuest => None
  end.

Fixpoint group (ic : bool) (ts : list token) : option (list item) :=
  match ts with
  | [] => Some []
  | t :: ts' =>
      match atom_of ic t with
      | None => None
      | Some a =>
          match ts' with
          | TStar :: ts'' => option_map (cons (Star a)) (group ic ts'')
          | TPlus :: ts'' => option_map (cons (Plus a)) (group ic ts'')
          | TQuest :: ts'' => option_map (cons (Opt a)) (group ic ts'')
          | _ => option_map (cons (Once a)) (group ic ts')
          end
      end
  end.

(** [re.compile(source, flags)] *)
Definition compile (source : str) (IGNORECASE : bool)
  : option (list item) :=
  match lex source with
  | None => None
  | Some ts => group IGNORECASE ts
  end.

(** One compiled character against one character of the subject; the
    subject character is lowered, the pattern was lowered when compiled. *)
Definition atom_ok (a : atom) (ch : N) : bool :=
  match a with
  | Literal c => (ch =? c)%N
  | LiteralUniIgnore lo => (unicode_tolower ch =? lo)%N
  | InUniIgnore chars => existsb (N.eqb (unicode_tolower ch)) chars
  | AnyChar => negb (ch =? 10)%N
  end.

Fixpoint match_here (p : list item) : str -> bool :=
  match p with
  | [] => fun _ => true
  | Once a :: p' =>
      fun s =>
        match s with
        | c :: s' => atom_ok a c && match_here p' s'
        | [] => false
        end
  | Star a :: p' =>
      fix star (s : str) : bool :=
        match_here p' s
        || match s with
           | c :: s' => atom_ok a c && star s'
           | [] => false
           end
  | Plus a :: p' =>
      fun s =>
        match s with
        | c :: s' =>
            atom_ok a c
            && (fix star (s : str) : bool :=
                  match_here p' s
                  || match s with
                     | c :: s' => atom_ok a c && star s'
                     | [] => false
                     end) s'
        | [] => false
        end
  | Opt a :: p' =>
      fun s =>
        match_here p' s
        || match s with
           | c :: s' => atom_ok a c && match_here p' s'
           | [] => false
           end
  end.

(** [pattern.search(subject)] *)
Fixpoint search (p : list item) (subject : str) : bool :=
  match_here p subject
  || match subject with
     | _ :: s' => search p s'
     | [] => false
     end.

(** [re.compile(re.escape(phrase), re.IGNORECASE)] *)
Definition compile_phrase (phrase : str) : option (list item) :=
  compile (escape phrase) true.

(** [pattern.search(line)] for the pattern of a phrase. *)
Definition matches (line phrase : str) : option bool :=
  match compile_phrase phrase with
  | Some p => Some (search p line)
  | None => None
  end.

(** The pattern of a phrase whose characters all stand for themselves. *)
Definition literal_pattern (phrase : str) : list item :=
  map (fun c => Once (compile_literal true c)) phrase.

(** Does the subject character match the pattern character, letter case
    ignored? *)
Definition char_match (p ch : N) : bool :=
  atom_ok (compile_literal true p) ch.

(** [needle in haystack] *)
Definition contains (haystack needle : str) : Prop :=
  exists pre post : str, haystack = pre ++ needle ++ post.

(** Lowercasing as the specification has it for the letters below U+0100:
    A to Z, and the capital letters of Latin-1, move 32 places up. *)
Definition lowercase (c : N) : N :=
  if between 65 90 c || between 192 214 c || between 216 222 c
  then (c + 32)%N else c.

(** The code points U+0000..U+00FF. *)
Definition code_points_below_256 : list N := map N.of_nat (seq 0 256).

End Uni.

(** ** [os.path] *)

Module Path.

(** [s.rfind(c)]: the last index of [c], or -1. *)
Fixpoint rfind_from (c : ascii) (s : string) (i : Z) (last : Z) : Z :=
  match s with
  | EmptyString => last
  | String d s' => rfind_from c s' (i + 1)%Z (if (d =? c)%char then i else last)
  end.

Definition rfind (c : ascii) (s : string) : Z := rfind_from c s 0%Z (-1)%Z.

(** [s[i:j]] for [0 <= i]. *)
Definition slice (s : string) (i j : Z) : string :=
  substring (Z.to_nat i) (Z.to_nat (j - i)) s.

(** [s[i:]] for [0 <= i]. *)
Definition slice_from (s : string) (i : Z) : string :=
  substring (Z.to_nat i) (length s) s.

(** [os.path.splitext(p)].  The extension starts at the last dot, unless
    that dot comes before the last separator or only dots stand between
    the separator and it (the loop that skips leading dots). *)
Definition splitext (p : string) : string * string :=
  let sepIndex := rfind "/" p in
  let dotIndex := rfind "." p in
  if (dotIndex >? sepIndex)%Z
     && existsb (fun c => negb (c =? ".")%char)
          (list_ascii_of_string (slice p (sepIndex + 1) dotIndex))
  then (slice p 0 dotIndex, slice_from p dotIndex)
  else (p, EmptyString).

(** [os.path.join(a, b)] *)
Definition join (a b : string) : string :=
  if Str.startswith "/" b then b
  else if (a =? EmptyString) || Str.endswith "/" a then (a ++ b)%string
  else (a ++ "/" ++ b)%string.

End Path.

(** ** Results, the outside world and standard output *)

(** One entry of a result list: text results have no ['page_number'] key. *)
Record occurrence : Type := mkOccurrence {
  file_path : string;
  page_number : option Z;
  line_number : Z;
  line_content : string
}.

(** What iterating over an opened text file gives. *)
Inductive text_read : Type :=
| OpenError (e : string)
    (** [open] raises *)
| ReadLines (lines : list string) (failure : option string)
    (** the lines the iterator yields, and the exception it then raises,
        if any *).

(** What [subprocess.run(['pdftotext', ...], check=True)] does. *)
Inductive run_result : Type :=
| Completed (stdout : string)
| FileNotFoundError
| CalledProcessError (e : string)
| RunException (e : string).

(** What the installed tool does with a file. *)
Inductive tool_result : Type :=
| ToolText (stdout : string)
| ToolExitNonZero (e : string)
| ToolException (e : string).

Inductive pdf_exception : Type :=
| PdfReadError (e : string)
| OtherException (e : string).

(** [page.extract_text()]; the empty string also stands for [None]. *)
Inductive page_result : Type :=
| Extracted (text : string)
| PageRaises (x : pdf_exception).

(** Opening the file, [PyPDF2.PdfReader(file)] and [len(reader.pages)]. *)
Inductive reader_result : Type :=
| ReaderRaises (x : pdf_exception)
| Pages (ps : list page_result).

(** One directory of [os.walk]: [(root, dirs, files)]. *)
Definition walk_entry : Type := string * list string * list string.

Record world : Type := mkWorld {
  isdir : string -> bool;
  (** what [os.walk] yields in the counting pass, in the searching pass
      and in [search_pdfs] *)
  walk_count : string -> list walk_entry;
  walk_search : string -> list walk_entry;
  walk_pdf : string -> list walk_entry;
  read_text : string -> text_read;
  tool_installed : bool;
  pdftotext : string -> tool_result;
  pypdf2 : string -> reader_result;
  (** whether the path holds a file name whose bytes on disk are not
      UTF-8: [os.walk] hands such a name over with lone surrogates
      (U+DC80..U+DCFF), which lie outside the alphabet of this model, so
      the string stands for the name and this field for the fact *)
  surrogate_escaped : string -> bool
}.

(** The things written to standard output, one constructor per message of
    the program.  A progress line carries its two counters and the file
    name, of which the source shows the first 50 characters; the percentage
    shown with them is the quotient of the counters. *)
Inductive output : Type :=
| FolderNotFound (folder : string)
| SearchingText (sentence : string) (exts : list string) (folder : string)
| CountingFiles
| FoundFiles (total : Z)
| NoFilesFound
| Progress (processed total : Z) (file_name : string)
| ErrorReading (path e : string)
| Newline
| WarnToolMissing (path : string)
| WarnPdfUnreadable (path : string)
| ErrPyPDF2 (path e : string)
| ErrPdftotext (path e : string)
| ErrUnexpected (path e : string)
| SearchingPdf (term folder : string)
| NoPdfFound
| FoundPdfs (n : Z)
| PdfProgress (i n : Z)
| ErrOnePdf
| ErrSentenceEmpty
| ErrDirectoryEmpty
| ResultsHeader
| ResultLine (hyperlink : string)
| FoundSummary (n : Z)
| NoMatches.

(** ** Scanning lines *)

(** [for line_idx, line in enumerate(lines, start): if pattern.search(line):
    occurrences.append({...})] *)
Fixpoint scan_lines (pattern : Re.pattern) (path : string) (page : option Z)
    (start : Z) (lines : list string) : list occurrence :=
  match lines with
  | [] => []
  | line :: rest =>
      (if Re.search pattern line
       then [mkOccurrence path page start (Str.strip line)]
       else [])
      ++ scan_lines pattern path page (start + 1)%Z rest
  end.

(** ** [search_text_files] *)

(** [file_extension.lower() in file_extensions_to_search], with
    [_, file_extension = os.path.splitext(file_name)]. *)
Definition eligible (exts : list string) (file_name : string) : bool :=
  let file_extension := snd (Path.splitext file_name) in
  existsb (String.eqb (Str.lower file_extension)) exts.

(** First pass: count the files to search. *)
Definition count_files (exts : list string) (entries : list walk_entry) : Z :=
  fold_left
    (fun total entry =>
       let '(_, _, files) := entry in
       fold_left
         (fun total file_name =>
            if eligible exts file_name then (total + 1)%Z else total)
         files total)
    entries 0%Z.

(** The variables of the second pass.  [processed_files] is not one of the
    source: it keeps the [file_path] values the loop builds, in order. *)
Record text_state : Type := mkTextState {
  found_occurrences : list occurrence;
  processed_files_count : Z;
  processed_files : list string;
  text_stdout : list output
}.

(** The [try] block around one text file. *)
Definition read_file (w : world) (pattern : Re.pattern) (path : string)
  : list occurrence * list output :=
  match read_text w path with
  | OpenError e => ([], [ErrorReading path e])
  | ReadLines lines failure =>
      (scan_lines pattern path None 1%Z lines,
       match failure with
       | Some e => [ErrorReading path e]
       | None => []
       end)
  end.

(** The body of the second pass for one file name. *)
Definition visit_file (w : world) (pattern : Re.pattern) (exts : list string)
    (total : Z) (root : string) (st : text_state) (file_name : string)
  : text_state :=
  if eligible exts file_name then
    let processed := (processed_files_count st + 1)%Z in
    let path := Path.join root file_name in
    let '(occs, diagnostics) := read_file w pattern path in
    mkTextState
      (found_occurrences st ++ occs)
      processed
      (processed_files st ++ [path])
      (text_stdout st ++ Progress processed total file_name :: diagnostics)
  else st.

(** Second pass: search the files. *)
Definition search_pass (w : world) (pattern : Re.pattern) (exts : list string)
    (total : Z) (entries : list walk_entry) (st : text_state) : text_state :=
  fold_left
    (fun st entry =>
       let '(root, _, files) := entry in
       fold_left (visit_file w pattern exts total root) files st)
    entries st.

(** The final state of [search_text_files]: its return value
    [found_occurrences], the total it announced, the counter of the second
    pass with the paths it opened, and what it wrote. *)
Record text_run : Type := mkTextRun {
  text_results : list occurrence;
  total_files_to_process : Z;
  files_processed : Z;
  files_opened : list string;
  text_output : list output
}.

Definition search_text_files_body (w : world) (pattern : Re.pattern)
    (folder_path search_sentence : string)
    (file_extensions_to_search : list string) : text_run :=
  if negb (isdir w folder_path) then
    mkTextRun [] 0%Z 0%Z [] [FolderNotFound folder_path]
  else
    let head :=
      [SearchingText search_sentence file_extensions_to_search folder_path;
       CountingFiles] in
    let total :=
      count_files file_extensions_to_search (walk_count w folder_path) in
    if (total =? 0)%Z then
      mkTextRun [] total 0%Z [] (head ++ [FoundFiles total; NoFilesFound])
    else
      let st :=
        search_pass w pattern file_extensions_to_search total
          (walk_search w folder_path)
          (mkTextState [] 0%Z [] (head ++ [FoundFiles total])) in
      mkTextRun (found_occurrences st) total (processed_files_count st)
        (processed_files st) (text_stdout st ++ [Newline]).

(** [search_text_files]; [None] stands for an exception that leaves the
    function, which only [re.compile] could raise. *)
Definition search_text_files (w : world) (folder_path search_sentence : string)
    (file_extensions_to_search : list string) : option text_run :=
  match compile_phrase search_sentence with
  | None => None
  | Some pattern =>
      Some (search_text_files_body w pattern folder_path search_sentence
              file_extensions_to_search)
  end.

(** ** [_search_single_pdf] *)

(** [subprocess.run(['pdftotext', '-enc', 'UTF-8', filepath, '-'],
    capture_output=True, text=True, check=True)]: without the executable
    the call raises [FileNotFoundError]. *)
Definition subprocess_run (w : world) (filepath : string) : run_result :=
  if tool_installed w then
    match pdftotext w filepath with
    | ToolText stdout => Completed stdout
    | ToolExitNonZero e => CalledProcessError e
    | ToolException e => RunException e
    end
  else FileNotFoundError.

(** The loop [for page_num in range(len(reader.pages))]: the occurrences
    appended, and the exception that ended the loop, if one did. *)
Fixpoint scan_pages (pattern : Re.pattern) (filepath : string) (page_num : Z)
    (pages : list page_result) : list occurrence * option pdf_exception :=
  match pages with
  | [] => ([], None)
  | PageRaises x :: _ => ([], Some x)
  | Extracted text :: rest =>
      let here :=
        if (text =? EmptyString) then []
        else scan_lines pattern filepath (Some (page_num + 1)%Z) 1%Z
               (Str.splitlines text) in
      let '(later, x) := scan_pages pattern filepath (page_num + 1)%Z rest in
      (here ++ later, x)
  end.

Definition pypdf2_diagnostic (filepath : string) (x : pdf_exception)
  : output :=
  match x with
  | PdfReadError _ => WarnPdfUnreadable filepath
  | OtherException e => ErrPyPDF2 filepath e
  end.

(** The inner [try]: the PyPDF2 fallback. *)
Definition pypdf2_fallback (w : world) (pattern : Re.pattern)
    (filepath : string) : list occurrence * list output :=
  match pypdf2 w filepath with
  | ReaderRaises x => ([], [pypdf2_diagnostic filepath x])
  | Pages ps =>
      match scan_pages pattern filepath 0%Z ps with
      | (occs, Some x) => (occs, [pypdf2_diagnostic filepath x])
      | (occs, None) => (occs, [])
      end
  end.

Definition search_single_pdf_body (w : world) (pattern : Re.pattern)
    (filepath : string) : list occurrence * list output :=
  match subprocess_run w filepath with
  | Completed text =>
      (if (text =? EmptyString) then []
       else scan_lines pattern filepath (Some 0%Z) 1%Z (Str.splitlines text),
       [])
  | FileNotFoundError =>
      let '(occs, diagnostics) := pypdf2_fallback w pattern filepath in
      (occs, WarnToolMissing filepath :: diagnostics)
  | CalledProcessError e => ([], [ErrPdftotext filepath e])
  | RunException e => ([], [ErrUnexpected filepath e])
  end.

(** [_search_single_pdf]: the list it returns and what the worker wrote;
    [None] stands for an exception that leaves the function, which only
    [re.compile] could raise. *)
Definition _search_single_pdf (w : world) (filepath search_term : string)
  : option (list occurrence * list output) :=
  match compile_phrase search_term with
  | None => None
  | Some pattern => Some (search_single_pdf_body w pattern filepath)
  end.

(** ** [search_pdfs] *)

(** The paths collected from [os.walk]:
    [file_name.lower().endswith(".pdf")]. *)
Definition pdf_files (entries : list walk_entry) : list string :=
  flat_map
    (fun entry =>
       let '(root, _, files) := entry in
       map (Path.join root)
         (filter (fun file_name => Str.endswith ".pdf" (Str.lower file_name))
            files))
    entries.

(** [executor.submit(_search_single_pdf, filepath, search_term)], as the
    value [future.result()] will give. *)
Definition submit (w : world) (search_term filepath : string)
  : option (list occurrence * list output) :=
  _search_single_pdf w filepath search_term.

(** The loop over the futures, in submission order.  What a worker wrote is
    placed before the progress line of its file; how the workers' lines
    interleave on the terminal is not modelled. *)
Fixpoint collect_futures (n : Z) (i : Z)
    (futures : list (option (list occurrence * list output)))
  : list occurrence * list output :=
  match futures with
  | [] => ([], [])
  | future :: rest =>
      let '(occs, out) := collect_futures n (i + 1)%Z rest in
      match future with
      | Some (occurrences, written) =>
          (occurrences ++ occs, written ++ PdfProgress (i + 1) n :: out)
      | None => (occs, ErrOnePdf :: out)
      end
  end.

Definition search_pdfs (w : world) (folder_path search_term : string)
  : list occurrence * list output :=
  if negb (isdir w folder_path) then ([], [FolderNotFound folder_path])
  else
    let pdf_files_to_process := pdf_files (walk_pdf w folder_path) in
    match pdf_files_to_process with
    | [] => ([], [SearchingPdf search_term folder_path; NoPdfFound])
    | _ =>
        let n := Z.of_nat (List.length pdf_files_to_process) in
        let futures := map (submit w search_term) pdf_files_to_process in
        let '(all_found_occurrences, out) := collect_futures n 0%Z futures in
        (all_found_occurrences,
         SearchingPdf search_term folder_path :: FoundPdfs n :: out
           ++ [Newline])
    end.

(** ** Aggregation *)

Definition sort_key_t : Type := string * Z * Z.

(** [lambda x: (x['file_path'], x.get('page_number', 0), x['line_number'])] *)
Definition sort_key (x : occurrence) : sort_key_t :=
  (file_path x,
   match page_number x with Some p => p | None => 0%Z end,
   line_number x).

(** Tuple comparison: strings by code point, then the two integers. *)
Definition key_compare (a b : sort_key_t) : comparison :=
  let '(fa, pa, la) := a in
  let '(fb, pb, lb) := b in
  match String.compare fa fb with
  | Eq => match Z.compare pa pb with
          | Eq => Z.compare la lb
          | c => c
          end
  | c => c
  end.

Definition key_leb (a b : sort_key_t) : bool :=
  match key_compare a b with Gt => false | _ => true end.

Definition key_eqb (a b : sort_key_t) : bool :=
  match key_compare a b with Eq => true | _ => false end.

(** [list.sort(key=...)] is a stable sort, and the result of a stable sort
    is fixed by the order of the keys, whatever the algorithm; it is
    modelled by insertion from the right, which puts an element before the
    equal ones that followed it. *)
Fixpoint insert_by_key (x : occurrence) (l : list occurrence)
  : list occurrence :=
  match l with
  | [] => [x]
  | y :: l' =>
      if key_leb (sort_key x) (sort_key y) then x :: l
      else y :: insert_by_key x l'
  end.

Definition sort_by_key (l : list occurrence) : list occurrence :=
  fold_right insert_by_key [] l.

(** [all_results = text_file_results + pdf_file_results], sorted when not
    empty. *)
Definition aggregate (text_file_results pdf_file_results : list occurrence)
  : list occurrence :=
  let all_results := text_file_results ++ pdf_file_results in
  match all_results with
  | [] => all_results
  | _ => sort_by_key all_results
  end.

(** ** The report *)

Definition COLOR_MAP : list (string * string) :=
  [(".html", "32"); (".htm", "32"); (".css", "34"); (".js", "31");
   (".py", "36"); (".md", "35"); (".txt", "37"); (".xml", "31");
   (".json", "31"); (".log", "33"); (".csv", "37"); (".sh", "36");
   (".yml", "35"); (".yaml", "35"); (".conf", "34"); (".pdf", "33")].

(** [d.get(key, default)] *)
Fixpoint dict_get (d : list (string * string)) (key default : string)
  : string :=
  match d with
  | [] => default
  | (k, v) :: d' => if (k =? key) then v else dict_get d' key default
  end.

Definition ESC : string := String (ascii_of_N 27) EmptyString.

Definition RESET_COLOR : string := (ESC ++ "[0m")%string.

(** [str(n)] *)
Definition str_of_int (n : Z) : string :=
  DecimalString.NilZero.string_of_int (Z.to_int n).

Module Quote.

Definition hex_digit (n : N) : ascii :=
  if (n <? 10)%N then ascii_of_N (48 + n) else ascii_of_N (55 + n).

(** The UTF-8 bytes of a code point below U+0100. *)
Definition utf8 (c : ascii) : list N :=
  let n := Str.code c in
  if (n <? 128)%N then [n] else [(192 + n / 64)%N; (128 + n mod 64)%N].

(** Letters, digits and [_.-~] are never quoted; [/] is the default
    [safe] argument. *)
Definition is_safe (b : N) : bool :=
  let c := ascii_of_N b in
  (b <? 128)%N
  && (Re.is_ascii_alnum c
      || existsb (Ascii.eqb c) (list_ascii_of_string "_.-~/")).

Definition quote_byte (b : N) : string :=
  if is_safe b then String (ascii_of_N b) EmptyString
  else String "%" (String (hex_digit (b / 16))
                     (String (hex_digit (b mod 16)) EmptyString)).

(** [urllib.parse.quote(s)] *)
Fixpoint quote (s : string) : string :=
  match s with
  | EmptyString => EmptyString
  | String c s' =>
      (String.concat EmptyString (map quote_byte (utf8 c)) ++ quote s')%string
  end.

End Quote.

(** [urllib.parse.quote(f_path)] in the report loop.  The call encodes the
    path as UTF-8 with strict error handling, so it raises
    [UnicodeEncodeError] on a path with lone surrogates; [None] stands
    for that exception, which nothing in the program catches. *)
Definition quote_path (w : world) (f_path : string) : option string :=
  if surrogate_escaped w f_path then None else Some (Quote.quote f_path).

(** The body of [for item in all_results]: the line it prints.  [line_num]
    and [page_info] are computed as in the source, which does not use
    them afterwards.  The hyperlink of the source ends with the bytes
    ESC ] 8 ; ; ESC and a backslash: its last escape holds a raw ESC
    character before the backslash. *)
Definition report_line (w : world) (item : occurrence) : option string :=
  let f_path := file_path item in
  let line_num := line_number item in
  let page_info :=
    match page_number item with
    | Some p => (" (Page " ++ str_of_int p ++ ")")%string
    | None => EmptyString
    end in
  let file_extension := snd (Path.splitext f_path) in
  let color_code := dict_get COLOR_MAP (Str.lower file_extension) "37" in
  let colored_f_path :=
    (ESC ++ "[" ++ color_code ++ "m" ++ f_path ++ RESET_COLOR)%string in
  match quote_path w f_path with
  | None => None
  | Some encoded_path =>
      let hyperlink :=
        (ESC ++ "]8;;file://" ++ encoded_path ++ ESC ++ "\"
           ++ colored_f_path ++ ESC ++ "]8;;" ++ ESC ++ "\")%string in
      Some hyperlink
  end.

(** The loop [for item in all_results]: the lines printed, or [None] when
    an item raises. *)
Fixpoint report_lines (w : world) (items : list occurrence)
  : option (list output) :=
  match items with
  | [] => Some []
  | item :: rest =>
      match report_line w item with
      | None => None
      | Some hyperlink =>
          option_map (cons (ResultLine hyperlink)) (report_lines w rest)
      end
  end.

(** The [if all_results: ... else: ...] that ends the program; the list is
    the sorted one. *)
Definition report (w : world) (all_results : list occurrence)
  : option (list output) :=
  match all_results with
  | [] => Some [NoMatches]
  | _ =>
      match report_lines w all_results with
      | None => None
      | Some lines =>
          Some (ResultsHeader
                  :: lines
                  ++ [FoundSummary (Z.of_nat (List.length all_results))])
      end
  end.

(** ** The main program *)

Definition extensions : list string :=
  [".html"; ".htm"; ".txt"; ".css"; ".js"; ".py"; ".md"; ".xml"; ".json";
   ".log"; ".csv"; ".sh"; ".yml"; ".yaml"; ".conf"; ".pdf"].

(** [[ext for ext in extensions if ext != '.pdf']] *)
Definition text_extensions : list string :=
  filter (fun ext => negb (ext =? ".pdf")) extensions.

(** How a run ends: with a refusal of its inputs, before anything is
    searched, or with the two result lists, their sorted concatenation and
    everything written. *)
Inductive run : Type :=
| Rejected (stdout : list output)
| Searched (text_file_results pdf_file_results all_results : list occurrence)
    (stdout : list output).

(** The [__main__] block, given the two lines read by [input].  [None]
    stands for an uncaught exception: the report loop is outside any
    [try], so an exception of [urllib.parse.quote] ends the program.
    Standard output is taken to accept every string, as it does under
    the [surrogateescape] error handler that Python gives it in the C and
    POSIX locales. *)
Definition main (w : world) (sentence_to_find folder_to_search : string)
  : option run :=
  if (Str.strip sentence_to_find =? EmptyString) then
    Some (Rejected [ErrSentenceEmpty])
  else if (Str.strip folder_to_search =? EmptyString) then
    Some (Rejected [ErrDirectoryEmpty])
  else
    match search_text_files w folder_to_search sentence_to_find
            text_extensions with
    | None => None
    | Some t =>
        let text_file_results := text_results t in
        let '(pdf_file_results, pdf_out) :=
          search_pdfs w folder_to_search sentence_to_find in
        let all_results := aggregate text_file_results pdf_file_results in
        match report w all_results with
        | None => None
        | Some printed =>
            Some (Searched text_file_results pdf_file_results all_results
                    (text_output t ++ pdf_out ++ printed))
        end
    end.

(** ** Vocabulary of the properties *)

(** The files the text enumerator selects from a walk, as the paths the
    second pass builds for them. *)
Definition candidate_files (exts : list string) (entries : list walk_entry)
  : list string :=
  flat_map
    (fun entry =>
       let '(root, _, files) := entry in
       map (Path.join root) (filter (eligible exts) files))
    entries.

(** The occurrences one text file adds to the result, and what is written
    about it after its progress line. *)
Definition text_file_occurrences (w : world) (phrase path : string)
  : list occurrence :=
  fst (read_file w (literal_pattern phrase) path).

Definition text_file_diagnostics (w : world) (phrase path : string)
  : list output :=
  snd (read_file w (literal_pattern phrase) path).

(** The occurrences one PDF file adds to the result. *)
Definition pdf_occurrences (w : world) (term filepath : string)
  : list occurrence :=
  match _search_single_pdf w filepath term with
  | Some (occurrences, _) => occurrences
  | None => []
  end.

(** A page whose text PyPDF2 extracts. *)
Definition extracts (pg : page_result) : bool :=
  match pg with
  | Extracted _ => true
  | PageRaises _ => false
  end.



Definition is_tool_warning (o : output) : bool :=
  match o with
  | WarnToolMissing _ => true
  | _ => false
  end.

(** How many times the missing tool is reported. *)
Definition tool_warnings (out : list output) : nat :=
  List.length (filter is_tool_warning out).

(** No page before page index [p] raises. *)
Definition readable_before (p : nat) (ps : list page_result) : Prop :=
  forall q x, (q < p)%nat -> nth_error ps q <> Some (PageRaises x).

Definition page_of (o : occurrence) : Z :=
  match page_number o with Some p => p | None => 0%Z end.

(** An occurrence of the file [path], on a line counted from 1. *)
Definition well_placed (path : string) (o : occurrence) : Prop :=
  file_path o = path /\ (1 <= line_number o)%Z.

(** Scan order within a text file or a [pdftotext] output. *)
Definition line_increases (a b : occurrence) : Prop :=
  (line_number a < line_number b)%Z.

(** Line numbers that never go down. *)
Definition line_nondecreasing (a b : occurrence) : Prop :=
  (line_number a <= line_number b)%Z.

(** Scan order within a PDF read page by page. *)
Definition page_line_increases (a b : occurrence) : Prop :=
  (page_of a < page_of b)%Z
  \/ (page_of a = page_of b /\ (line_number a < line_number b)%Z).

(** Order of the sort keys, on occurrences. *)
Definition key_le (x y : occurrence) : Prop :=
  key_leb (sort_key x) (sort_key y) = true.

(** The order the specification asks for, written on the fields: file
    path ascending by code point, then page number with 0 for an absent
    one, then line number. *)
Definition lex_le (A B : occurrence) : Prop :=
  String.ltb (file_path A) (file_path B) = true
  \/ (file_path A = file_path B
      /\ ((page_of A < page_of B)%Z
          \/ (page_of A = page_of B
              /\ (line_number A <= line_number B)%Z))).

(** An occurrence at the given path, page (0 for none) and line. *)
Definition same_place (f : string) (p l : Z) (x : occurrence) : bool :=
  (file_path x =? f)%string && (page_of x =? p)%Z && (line_number x =? l)%Z.

(** What a stretch of the second pass over the paths [paths] does to the
    state. *)
Definition advanced (w : world) (pattern : Re.pattern) (st st' : text_state)
    (paths : list string) : Prop :=
  found_occurrences st'
  = found_occurrences st
      ++ flat_map (fun p => fst (read_file w pattern p)) paths
  /\ processed_files_count st'
     = (processed_files_count st + Z.of_nat (List.length paths))%Z
  /\ processed_files st' = processed_files st ++ paths
  /\ incl (text_stdout st) (text_stdout st')
  /\ (forall p, In p paths ->
        incl (snd (read_file w pattern p)) (text_stdout st')).

(** ** Two sample worlds

    A directory [/r] with three text files and, in [/r/sub], nothing but a
    PDF whose name is in capitals; [c.pdf] has two pages, [d.PDF] is
    damaged, and reading [e.log] fails after its first line. *)

Definition LF : string := String (ascii_of_N 10) EmptyString.
Definition FF : string := String (ascii_of_N 12) EmptyString.

Definition sample_walk : list walk_entry :=
  [("/r", ["sub"], ["a.txt"; "b.md"; "c.pdf"; "e.log"; "notes"]);
   ("/r/sub", [], ["d.PDF"])].

Definition sample_read_text (path : string) : text_read :=
  if (path =? "/r/a.txt") then
    ReadLines [("first line" ++ LF)%string; ("  Hello World" ++ LF)%string] None
  else if (path =? "/r/b.md") then
    ReadLines [("nothing here" ++ LF)%string] None
  else if (path =? "/r/e.log") then
    ReadLines [("hello world once" ++ LF)%string]
      (Some "[Errno 5] Input/output error")
  else OpenError "[Errno 2] No such file or directory".

Definition sample_pypdf2 (path : string) : reader_result :=
  if (path =? "/r/c.pdf") then
    Pages [Extracted
             ("intro" ++ LF ++ "title" ++ LF ++ "hello world order")%string;
           Extracted "Hello World again"]
  else ReaderRaises (PdfReadError "EOF marker not found").

Definition sample_pdftotext (path : string) : tool_result :=
  if (path =? "/r/c.pdf") then
    ToolText ("intro" ++ LF ++ "title" ++ LF ++ "hello world order" ++ LF
              ++ FF ++ "Hello World again" ++ LF)%string
  else ToolExitNonZero "returned non-zero exit status 1".

(** [pdftotext] is not installed. *)
Definition sample_world : world :=
  mkWorld (fun p => (p =? "/r")) (fun _ => sample_walk)
    (fun _ => sample_walk) (fun _ => sample_walk) sample_read_text
    false sample_pdftotext sample_pypdf2 (fun _ => false).

(** The same directory on a machine that has [pdftotext]. *)
Definition sample_world_with_tool : world :=
  mkWorld (fun p => (p =? "/r")) (fun _ => sample_walk)
    (fun _ => sample_walk) (fun _ => sample_walk) sample_read_text
    true sample_pdftotext sample_pypdf2 (fun _ => false).

(** ** Further vocabulary *)

(** [not s.strip()]: nothing but whitespace, or nothing at all. *)
Definition blank (s : string) : bool := (Str.strip s =? EmptyString).


(** The two counters of every progress line of the PDF search. *)
Definition pdf_progress_of (out : list output) : list (Z * Z) :=
  flat_map
    (fun o => match o with
              | PdfProgress i n => [(i, n)]
              | _ => []
              end)
    out.

(** The pairs [(1, n); (2, n); ...; (m, n)]. *)
Definition counting_up (m : nat) (n : Z) : list (Z * Z) :=
  map (fun k => (Z.of_nat k, n)) (seq 1 m).

(** The same machine and files with another PyPDF2 behaviour. *)
Definition with_pypdf2 (w : world) (reader : string -> reader_result)
  : world :=
  mkWorld (isdir w) (walk_count w) (walk_search w) (walk_pdf w)
    (read_text w) (tool_installed w) (pdftotext w) reader
    (surrogate_escaped w).



(** The first and the last character of a string, if it has one. *)
Definition first_char (s : string) : option ascii :=
  match s with
  | EmptyString => None
  | String c _ => Some c
  end.

Fixpoint last_char (s : string) : option ascii :=
  match s with
  | EmptyString => None
  | String c EmptyString => Some c
  | String _ s' => last_char s'
  end.

(** No whitespace at either end. *)
Definition trimmed (s : string) : Prop :=
  (forall c, first_char s = Some c -> Str.is_space c = false)
  /\ (forall c, last_char s = Some c -> Str.is_space c = false).

(** The file name the PDF enumerator looks at:
    [file_name.lower().endswith(".pdf")]. *)
Definition is_pdf_name (file_name : string) : bool :=
  Str.endswith ".pdf" (Str.lower file_name).

(** A character [urllib.parse.quote] lets through as it is. *)
Definition unreserved (c : ascii) : bool :=
  Quote.is_safe (Str.code c).

(** A character that can stand in a quoted path: an unreserved one or the
    percent sign of an escape. *)
Definition url_char (c : ascii) : bool :=
  unreserved c || (c =? "%")%char.

Fixpoint all_chars (P : ascii -> bool) (s : string) : bool :=
  match s with
  | EmptyString => true
  | String c s' => P c && all_chars P s'
  end.

(** The character does not occur in the string. *)
Definition lacks (c : ascii) (s : string) : bool :=
  all_chars (fun d => negb (d =? c)%char) s.

(** ** The matcher (C1) *)

Section Matcher.

Lemma special_is_not_alnum (c : ascii) :
  Re.is_special c = true -> Re.is_ascii_alnum c = false.
Proof.
  destruct c as [[] [] [] [] [] [] [] []]; vm_compute; congruence.
Qed.

Lemma ordinary_lexes_as_itself (c : ascii) :
  Re.is_special c = false ->
  (c =? "\")%char = false /\ (c =? ".")%char = false
  /\ (c =? "*")%char = false /\ (c =? "+")%char = false
  /\ (c =? "?")%char = false /\ Re.is_unsupported c = false.
Proof.
  destruct c as [[] [] [] [] [] [] [] []]; vm_compute; intuition congruence.
Qed.

Lemma lex_escape (P : string) :
  Re.lex (Re.escape P) = Some (map Re.TChar (list_ascii_of_string P)).
Proof.
  induction P as [|c P IH]; [reflexivity|].
  cbn [Re.escape list_ascii_of_string map].
  destruct (Re.is_special c) eqn:Hc.
  - cbn [Re.lex]. rewrite Ascii.eqb_refl.
    rewrite (special_is_not_alnum c Hc), IH. reflexivity.
  - destruct (ordinary_lexes_as_itself c Hc) as (H1 & H2 & H3 & H4 & H5 & H6).
    cbn [Re.lex]. rewrite H1, H2, H3, H4, H5, H6, IH. reflexivity.
Qed.

Lemma group_chars (l : list ascii) :
  Re.group (map Re.TChar l) = Some (map (fun c => Re.Once (Re.Lit c)) l).
Proof.
  induction l as [|c l IH]; [reflexivity|].
  cbn [map Re.group Re.atom_of].
  destruct l as [|d l]; [reflexivity|].
  cbn [map] in *. rewrite IH. reflexivity.
Qed.

Lemma compile_phrase_literal (P : string) :
  compile_phrase P = Some (literal_pattern P).
Proof.
  unfold compile_phrase, Re.compile, literal_pattern, literal_items.
  rewrite lex_escape, group_chars. reflexivity.
Qed.

Lemma match_here_literal (P s : string) :
  Re.match_here true (literal_items P) s = true
  <-> exists post : string, Str.lower s = (Str.lower P ++ post)%string.
Proof.
  revert s. induction P as [|p P IH]; intros s.
  - cbn. split; [intros _; exists (Str.lower s); reflexivity | reflexivity].
  - unfold literal_items in *.
    cbn [list_ascii_of_string map Re.match_here Str.lower String.append].
    destruct s as [|c s]; cbn [Str.lower].
    + split; [discriminate | intros [post H]; discriminate].
    + rewrite andb_true_iff, IH. cbn [Re.atom_ok].
      rewrite Ascii.eqb_eq. split.
      * intros [Hc [post Hs]]. exists post. rewrite Hc, Hs. reflexivity.
      * intros [post H]. injection H as Hc Hs. split; [congruence|].
        exists post. exact Hs.
Qed.

Lemma search_literal (P s : string) :
  Re.search (literal_pattern P) s = true
  <-> Str.contains (Str.lower s) (Str.lower P).
Proof.
  unfold Str.contains. induction s as [|c s IH].
  - cbn [Re.search literal_pattern Re.items Re.ignorecase].
    rewrite orb_false_r, match_here_literal. split.
    + intros [post H]. exists EmptyString, post. exact H.
    + intros (pre & post & H). destruct pre as [|a pre]; [|discriminate].
      exists post. exact H.
  - cbn [Re.search]. rewrite orb_true_iff, IH.
    cbn [literal_pattern Re.items Re.ignorecase]. rewrite match_here_literal.
    split.
    + intros [[post H] | (pre & post & H)].
      * exists EmptyString, post. exact H.
      * exists (String (Str.lower_char c) pre), post.
        cbn [Str.lower String.append]. rewrite H. reflexivity.
    + intros (pre & post & H). destruct pre as [|a pre].
      * left. exists post. exact H.
      * right. cbn [Str.lower String.append] in H. injection H as _ H.
        exists pre, post. exact H.
Qed.

End Matcher.

(** The scenario of the specification: the phrase [a.b*c] is found where it
    stands literally, in any letter case, and nowhere else; read as a
    pattern, the same text would match [axbbc]. *)
Example phrase_with_metacharacters :
  matches "see a.B*c here" "a.b*c" = Some true
  /\ matches "axbyc" "a.b*c" = Some false
  /\ matches "axbbc" "a.b*c" = Some false
  /\ option_map (fun p => Re.search p "axbbc") (Re.compile "a.b*c" true)
     = Some true.
Proof. repeat split. Qed.

(** ** The matcher on code points (C1) *)

Section UnicodeMatcher.

Lemma existsb_false_in (A : Type) (f : A -> bool) (l : list A) (x : A) :
  existsb f l = false -> In x l -> f x = false.
Proof.
  intros H Hin. destruct (f x) eqn:Hx; [|reflexivity].
  rewrite <- H. symmetry. apply existsb_exists. exists x. auto.
Qed.

Lemma uni_special_is_not_alnum (c : N) :
  Uni.is_special c = true -> Uni.is_ascii_alnum c = false.
Proof.
  unfold Uni.is_special. intros H. apply existsb_exists in H.
  destruct H as (x & Hin & Hx). apply N.eqb_eq in Hx. subst x.
  cbn in Hin.
  repeat (destruct Hin as [<- | Hin]; [reflexivity|]). destruct Hin.
Qed.

Lemma uni_ordinary_lexes_as_itself (c : N) :
  Uni.is_special c = false ->
  (c =? 92)%N = false /\ (c =? 46)%N = false /\ (c =? 42)%N = false
  /\ (c =? 43)%N = false /\ (c =? 63)%N = false
  /\ Uni.is_unsupported c = false.
Proof.
  unfold Uni.is_special. intros H.
  assert (Hin : forall x, In x Uni.special_chars -> (c =? x)%N = false).
  { intros x Hx. exact (existsb_false_in _ _ _ x H Hx). }
  repeat split; try (apply Hin; cbn; tauto).
  unfold Uni.is_unsupported.
  destruct (existsb (N.eqb c) (Uni.of_string "()[{|^$")) eqn:Hu;
    [|reflexivity].
  apply existsb_exists in Hu. destruct Hu as (x & Hx & Hcx).
  rewrite Hin in Hcx; [discriminate|].
  cbn in Hx. repeat (destruct Hx as [<- | Hx]; [cbn; tauto|]). destruct Hx.
Qed.

Lemma uni_lex_escape (P : Uni.str) :
  Uni.lex (Uni.escape P) = Some (map Uni.TChar P).
Proof.
  induction P as [|c P IH]; [reflexivity|].
  cbn [Uni.escape map]. destruct (Uni.is_special c) eqn:Hc.
  - cbn [Uni.lex]. rewrite N.eqb_refl.
    rewrite (uni_special_is_not_alnum c Hc), IH. reflexivity.
  - destruct (uni_ordinary_lexes_as_itself c Hc)
      as (H1 & H2 & H3 & H4 & H5 & H6).
    cbn [Uni.lex]. rewrite H1, H2, H3, H4, H5, H6, IH. reflexivity.
Qed.

Lemma uni_group_chars (ic : bool) (l : Uni.str) :
  Uni.group ic (map Uni.TChar l)
  = Some (map (fun c => Uni.Once (Uni.compile_literal ic c)) l).
Proof.
  induction l as [|c l IH]; [reflexivity|].
  cbn [map Uni.group Uni.atom_of].
  destruct l as [|d l]; [reflexivity|].
  cbn [map] in *. rewrite IH. reflexivity.
Qed.

Lemma uni_compile_phrase_literal (P : Uni.str) :
  Uni.compile_phrase P = Some (Uni.literal_pattern P).
Proof.
  unfold Uni.compile_phrase, Uni.compile, Uni.literal_pattern.
  rewrite uni_lex_escape. apply uni_group_chars.
Qed.

Lemma uni_match_here_literal (P s : Uni.str) :
  Uni.match_here (Uni.literal_pattern P) s = true
  <-> exists mid post : Uni.str,
        s = mid ++ post
        /\ Forall2 (fun p ch => Uni.char_match p ch = true) P mid.
Proof.
  revert s. induction P as [|p P IH]; intros s.
  - cbn. split; [|reflexivity]. intros _. exists [], s. split; constructor.
  - unfold Uni.literal_pattern in *. cbn [map Uni.match_here].
    destruct s as [|c s].
    + split; [discriminate|]. intros (mid & post & Hs & Hm).
      inversion Hm; subst. discriminate.
    + rewrite andb_true_iff, IH. fold (Uni.char_match p c). split.
      * intros [Hc (mid & post & -> & Hm)].
        exists (c :: mid), post. split; [reflexivity|]. constructor; auto.
      * intros (mid & post & Hs & Hm). inversion Hm; subst.
        cbn in Hs. injection Hs as -> ->. split; [assumption|].
        eexists _, post. split; [reflexivity | assumption].
Qed.

Lemma uni_search_literal (P s : Uni.str) :
  Uni.search (Uni.literal_pattern P) s = true
  <-> exists pre mid post : Uni.str,
        s = pre ++ mid ++ post
        /\ Forall2 (fun p ch => Uni.char_match p ch = true) P mid.
Proof.
  induction s as [|c s IH]; cbn [Uni.search].
  - rewrite orb_false_r, uni_match_here_literal. split.
    + intros (mid & post & H & Hm). exists [], mid, post. auto.
    + intros (pre & mid & post & H & Hm).
      destruct pre; [|discriminate]. exists mid, post. auto.
  - rewrite orb_true_iff, IH, uni_match_here_literal. split.
    + intros [(mid & post & H & Hm) | (pre & mid & post & H & Hm)].
      * exists [], mid, post. auto.
      * exists (c :: pre), mid, post. rewrite H. auto.
    + intros (pre & mid & post & H & Hm). destruct pre as [|a pre].
      * left. exists mid, post. auto.
      * right. cbn in H. injection H as _ H. exists pre, mid, post. auto.
Qed.

Lemma below_256_listed (c : N) : (c < 256)%N -> In c Uni.code_points_below_256.
Proof.
  intros H. unfold Uni.code_points_below_256.
  rewrite <- (N2Nat.id c). apply in_map. apply in_seq. lia.
Qed.

(** Below U+0100 the comparison of the matcher is equality of lowercase
    forms: checked on the 256 x 256 pairs. *)
Lemma char_match_table :
  forallb
    (fun p =>
       let a := Uni.compile_literal true p in
       let low := Uni.lowercase p in
       forallb
         (fun ch => Bool.eqb (Uni.atom_ok a ch) (low =? Uni.lowercase ch)%N)
         Uni.code_points_below_256)
    Uni.code_points_below_256
  = true.
Proof. vm_compute. reflexivity. Qed.

Lemma char_match_below_256 (p ch : N) :
  (p < 256)%N -> (ch < 256)%N ->
  Uni.char_match p ch = (Uni.lowercase p =? Uni.lowercase ch)%N.
Proof.
  intros Hp Hc. pose proof char_match_table as H.
  rewrite forallb_forall in H.
  specialize (H p (below_256_listed p Hp)). cbv zeta in H.
  rewrite forallb_forall in H.
  specialize (H ch (below_256_listed ch Hc)).
  apply Bool.eqb_prop in H. exact H.
Qed.

Lemma lowercase_matched (P mid : Uni.str) :
  Forall (fun c => (c < 256)%N) P ->
  Forall (fun c => (c < 256)%N) mid ->
  (Forall2 (fun p ch => Uni.char_match p ch = true) P mid
   <-> map Uni.lowercase mid = map Uni.lowercase P).
Proof.
  revert mid. induction P as [|p P IH]; intros mid HP Hmid.
  - split.
    + intros H. inversion H. reflexivity.
    + destruct mid; [constructor | discriminate].
  - destruct mid as [|c mid].
    + split; [intros H; inversion H | discriminate].
    + apply Forall_cons_iff in HP, Hmid.
      destruct HP as [Hp HP], Hmid as [Hc Hmid].
      specialize (IH mid HP Hmid). cbn [map]. split.
      * intros H. inversion H; subst.
        rewrite char_match_below_256 in * by assumption.
        f_equal; [symmetry; apply N.eqb_eq; assumption | apply IH; assumption].
      * intros H. injection H as H1 H2. constructor.
        -- rewrite char_match_below_256 by assumption.
           apply N.eqb_eq. congruence.
        -- apply IH. exact H2.
Qed.

End UnicodeMatcher.

(** *** The matcher of the search functions is this one below U+0100 *)

Section Restriction.

Lemma lower_char_code (c : ascii) :
  N_of_ascii (Str.lower_char c) = Uni.lowercase (N_of_ascii c).
Proof. destruct c as [[] [] [] [] [] [] [] []]; reflexivity. Qed.

Lemma ascii_eqb_code (a b : ascii) :
  (a =? b)%char = (N_of_ascii a =? N_of_ascii b)%N.
Proof.
  destruct (Ascii.eqb_spec a b) as [-> | Hne].
  - symmetry. apply N.eqb_refl.
  - symmetry. apply N.eqb_neq. intros H. apply Hne.
    rewrite <- (ascii_N_embedding a), <- (ascii_N_embedding b), H.
    reflexivity.
Qed.

Lemma re_atom_agrees (p c : ascii) :
  Re.atom_ok true (Re.Lit p) c
  = Uni.char_match (N_of_ascii p) (N_of_ascii c).
Proof.
  cbn [Re.atom_ok].
  rewrite char_match_below_256 by apply N_ascii_bounded.
  rewrite ascii_eqb_code, !lower_char_code. reflexivity.
Qed.

Lemma re_match_here_agrees (P s : string) :
  Re.match_here true (literal_items P) s
  = Uni.match_here (Uni.literal_pattern (Uni.of_string P)) (Uni.of_string s).
Proof.
  revert s. induction P as [|p P IH]; intros s; [reflexivity|].
  unfold literal_items, Uni.literal_pattern, Uni.of_string in *.
  cbn [list_ascii_of_string map Re.match_here Uni.match_here].
  destruct s as [|c s]; [reflexivity|].
  cbn [list_ascii_of_string map]. rewrite IH, re_atom_agrees. reflexivity.
Qed.

(** On strings below U+0100 the matcher [Re] of the two search functions
    answers as the matcher on code points does. *)
Lemma re_search_agrees (P s : string) :
  Re.search (literal_pattern P) s
  = Uni.search (Uni.literal_pattern (Uni.of_string P)) (Uni.of_string s).
Proof.
  induction s as [|c s IH].
  - cbn [Re.search Uni.search literal_pattern Re.items Re.ignorecase].
    rewrite re_match_here_agrees. reflexivity.
  - cbn [Re.search literal_pattern Re.items Re.ignorecase].
    rewrite re_match_here_agrees.
    change (Uni.of_string (String c s))
      with (N_of_ascii c :: Uni.of_string s).
    cbn [Uni.search]. cbn [literal_pattern Re.items Re.ignorecase] in IH.
    rewrite <- IH. reflexivity.
Qed.

End Restriction.

(** The matcher finds the phrase [kapi] in the line [kap] + U+0131 (dotless
    i), whose lowercase form - the line itself - does not contain it. *)
Lemma dotless_i_is_found_for_i :
  Uni.matches (Uni.of_string "kap" ++ [305%N]) (Uni.of_string "kapi")
  = Some true
  /\ map Uni.unicode_tolower (Uni.of_string "kap" ++ [305%N])
     = Uni.of_string "kap" ++ [305%N]
  /\ map Uni.unicode_tolower (Uni.of_string "kapi") = Uni.of_string "kapi"
  /\ ~ Uni.contains
         (map Uni.unicode_tolower (Uni.of_string "kap" ++ [305%N]))
         (map Uni.unicode_tolower (Uni.of_string "kapi")).
Proof.
  split; [vm_compute; reflexivity|].
  split; [vm_compute; reflexivity|].
  split; [vm_compute; reflexivity|].
  intros (pre & post & H). vm_compute in H.
  destruct pre as [|a [|b [|c [|d [|e pre]]]]]; cbn in H; discriminate.
Qed.

(** C1, as the program has it.  Whatever regex-special characters the
    phrase holds, its pattern is the phrase's own characters, each one a
    literal; the matcher reports a match on a line exactly when the line
    has a contiguous stretch that matches the phrase character by
    character under the letter-case comparison of [re.IGNORECASE]; and
    for a line and a phrase of characters below U+0100 that is exactly
    when the lowercased line contains the lowercased phrase. *)
Theorem matcher_is_literal_and_caseless (L P : Uni.str) :
  Uni.compile_phrase P = Some (Uni.literal_pattern P)
  /\ exists b : bool,
       Uni.matches L P = Some b
       /\ (b = true
           <-> exists pre mid post : Uni.str,
                 L = pre ++ mid ++ post
                 /\ Forall2 (fun p ch => Uni.char_match p ch = true) P mid)
       /\ (Forall (fun c => (c < 256)%N) L ->
           Forall (fun c => (c < 256)%N) P ->
           (b = true
            <-> Uni.contains (map Uni.lowercase L) (map Uni.lowercase P))).
Proof.
  split; [apply uni_compile_phrase_literal|].
  unfold Uni.matches. rewrite uni_compile_phrase_literal.
  eexists. split; [reflexivity|]. split; [apply uni_search_literal|].
  intros HL HP. rewrite uni_search_literal. split.
  - intros (pre & mid & post & -> & Hm).
    apply Forall_app in HL. destruct HL as [_ HL].
    apply Forall_app in HL. destruct HL as [Hmid _].
    apply (lowercase_matched P mid HP Hmid) in Hm.
    exists (map Uni.lowercase pre), (map Uni.lowercase post).
    rewrite !map_app, Hm. reflexivity.
  - intros (pre & post & H).
    apply map_eq_app in H. destruct H as (l1 & l2 & -> & _ & H).
    apply map_eq_app in H. destruct H as (mid & l3 & -> & Hmid & _).
    exists l1, mid, l3. split; [reflexivity|].
    apply Forall_app in HL. destruct HL as [_ HL].
    apply Forall_app in HL. destruct HL as [Hm _].
    apply (lowercase_matched P mid HP Hm). exact Hmid.
Qed.

Lemma matcher_is_literal_and_caseless_witness :
  Uni.contains (map Uni.lowercase (Uni.of_string "see a.B*c here"))
    (map Uni.lowercase (Uni.of_string "a.b*c")).
Proof.
  destruct (matcher_is_literal_and_caseless
              (Uni.of_string "see a.B*c here") (Uni.of_string "a.b*c"))
    as (_ & b & Hb & _ & Hlatin).
  assert (HL : Forall (fun c => (c < 256)%N)
                 (Uni.of_string "see a.B*c here")).
  { repeat constructor. }
  assert (HP : Forall (fun c => (c < 256)%N) (Uni.of_string "a.b*c")).
  { repeat constructor. }
  apply (Hlatin HL HP). vm_compute in Hb. congruence.
Defined.

(** ** Aggregation (C2) *)

Section Ordering.

Lemma string_compare_refl (a : string) : String.compare a a = Eq.
Proof.
  induction a as [|c a IH]; [reflexivity|].
  cbn. unfold Ascii.compare. rewrite N.compare_refl. exact IH.
Qed.

Lemma string_compare_lt_trans (a b c : string) :
  String.compare a b = Lt -> String.compare b c = Lt ->
  String.compare a c = Lt.
Proof.
  revert b c. induction a as [|x a IH]; intros [|y b] [|z c]; cbn;
    try congruence.
  unfold Ascii.compare.
  destruct (N.compare_spec (N_of_ascii x) (N_of_ascii y)) as [Hxy|Hxy|Hxy];
    destruct (N.compare_spec (N_of_ascii y) (N_of_ascii z)) as [Hyz|Hyz|Hyz];
    try congruence; intros Hab Hbc.
  - rewrite Hxy, Hyz, N.compare_refl. eapply IH; eassumption.
  - rewrite Hxy. apply N.compare_lt_iff in Hyz. rewrite Hyz. reflexivity.
  - rewrite <- Hyz. apply N.compare_lt_iff in Hxy. rewrite Hxy. reflexivity.
  - assert (H : (N_of_ascii x < N_of_ascii z)%N) by lia.
    apply N.compare_lt_iff in H. rewrite H. reflexivity.
Qed.

Lemma key_compare_eq (a b : sort_key_t) : key_compare a b = Eq -> a = b.
Proof.
  destruct a as [[fa pa] la], b as [[fb pb] lb]. cbn.
  destruct (String.compare fa fb) eqn:Hf; try discriminate.
  destruct (Z.compare pa pb) eqn:Hp; try discriminate.
  intros Hl. apply String.compare_eq_iff in Hf.
  apply Z.compare_eq in Hp. apply Z.compare_eq in Hl. congruence.
Qed.

Lemma key_compare_refl (a : sort_key_t) : key_compare a a = Eq.
Proof.
  destruct a as [[fa pa] la]. cbn.
  rewrite string_compare_refl, !Z.compare_refl. reflexivity.
Qed.

Lemma key_compare_antisym (a b : sort_key_t) :
  key_compare a b = CompOpp (key_compare b a).
Proof.
  destruct a as [[fa pa] la], b as [[fb pb] lb]. cbn.
  rewrite (String.compare_antisym fa fb), (Z.compare_antisym pb pa),
    (Z.compare_antisym lb la).
  destruct (String.compare fb fa), (Z.compare pb pa); reflexivity.
Qed.

Lemma key_compare_lt_trans (a b c : sort_key_t) :
  key_compare a b = Lt -> key_compare b c = Lt -> key_compare a c = Lt.
Proof.
  destruct a as [[fa pa] la], b as [[fb pb] lb], c as [[fc pc] lc]. cbn.
  destruct (String.compare fa fb) eqn:Hab; try discriminate;
    destruct (String.compare fb fc) eqn:Hbc; try discriminate.
  - apply String.compare_eq_iff in Hab, Hbc. subst.
    rewrite string_compare_refl.
    destruct (Z.compare_spec pa pb), (Z.compare_spec pb pc);
      try discriminate; intros H1 H2.
    + subst. rewrite Z.compare_refl.
      assert (Hab : (la < lb)%Z) by (apply Z.compare_lt_iff; exact H1).
      assert (Hbc : (lb < lc)%Z) by (apply Z.compare_lt_iff; exact H2).
      apply Z.compare_lt_iff. lia.
    + subst. apply Z.compare_lt_iff in H0. rewrite H0. reflexivity.
    + subst. apply Z.compare_lt_iff in H. rewrite H. reflexivity.
    + assert (Hlt : (pa < pc)%Z) by lia.
      apply Z.compare_lt_iff in Hlt. rewrite Hlt. reflexivity.
  - apply String.compare_eq_iff in Hab. subst. rewrite Hbc. reflexivity.
  - apply String.compare_eq_iff in Hbc. subst. rewrite Hab. reflexivity.
  - rewrite (string_compare_lt_trans _ _ _ Hab Hbc). reflexivity.
Qed.

Lemma key_leb_total (a b : sort_key_t) :
  key_leb a b = true \/ key_leb b a = true.
Proof.
  unfold key_leb. rewrite (key_compare_antisym a b).
  destruct (key_compare b a); cbn; auto.
Qed.

Lemma key_leb_trans (a b c : sort_key_t) :
  key_leb a b = true -> key_leb b c = true -> key_leb a c = true.
Proof.
  unfold key_leb.
  destruct (key_compare a b) eqn:Hab; try discriminate;
    destruct (key_compare b c) eqn:Hbc; try discriminate; intros _ _.
  - apply key_compare_eq in Hab. subst. rewrite Hbc. reflexivity.
  - apply key_compare_eq in Hab. subst. rewrite Hbc. reflexivity.
  - apply key_compare_eq in Hbc. subst. rewrite Hab. reflexivity.
  - rewrite (key_compare_lt_trans _ _ _ Hab Hbc). reflexivity.
Qed.

Lemma key_eqb_eq (a b : sort_key_t) : key_eqb a b = true <-> a = b.
Proof.
  unfold key_eqb. split.
  - destruct (key_compare a b) eqn:H; try discriminate.
    intros _. apply key_compare_eq. exact H.
  - intros ->. rewrite key_compare_refl. reflexivity.
Qed.

Lemma insert_by_key_perm (x : occurrence) (l : list occurrence) :
  Permutation (x :: l) (insert_by_key x l).
Proof.
  induction l as [|y l IH]; cbn; [reflexivity|].
  destruct (key_leb (sort_key x) (sort_key y)); [reflexivity|].
  rewrite perm_swap. constructor. exact IH.
Qed.

Lemma sort_by_key_perm (l : list occurrence) :
  Permutation l (sort_by_key l).
Proof.
  induction l as [|x l IH]; cbn; [constructor|].
  rewrite <- insert_by_key_perm. constructor. exact IH.
Qed.

Lemma insert_by_key_sorted (x : occurrence) (l : list occurrence) :
  StronglySorted key_le l -> StronglySorted key_le (insert_by_key x l).
Proof.
  induction l as [|y l IH]; intros Hs; cbn.
  - repeat constructor.
  - apply StronglySorted_inv in Hs. destruct Hs as [Hl Hy].
    destruct (key_leb (sort_key x) (sort_key y)) eqn:Hxy.
    + constructor; [constructor; assumption|].
      constructor; [exact Hxy|].
      eapply Forall_impl; [|exact Hy].
      intros z Hz. eapply key_leb_trans; eassumption.
    + constructor; [apply IH; exact Hl|].
      eapply Permutation_Forall; [apply insert_by_key_perm|].
      constructor; [|exact Hy].
      destruct (key_leb_total (sort_key x) (sort_key y)); congruence.
Qed.

Lemma sort_by_key_sorted (l : list occurrence) :
  StronglySorted key_le (sort_by_key l).
Proof.
  induction l as [|x l IH]; cbn; [constructor|].
  apply insert_by_key_sorted. exact IH.
Qed.

Lemma insert_by_key_filter (k : sort_key_t) (x : occurrence)
    (l : list occurrence) :
  filter (fun o => key_eqb (sort_key o) k) (insert_by_key x l)
  = filter (fun o => key_eqb (sort_key o) k) (x :: l).
Proof.
  induction l as [|y l IH]; [reflexivity|].
  cbn [insert_by_key].
  destruct (key_leb (sort_key x) (sort_key y)) eqn:Hxy; [reflexivity|].
  cbn [filter] in *. rewrite IH.
  destruct (key_eqb (sort_key x) k) eqn:Hx; [|reflexivity].
  destruct (key_eqb (sort_key y) k) eqn:Hy; [|reflexivity].
  apply key_eqb_eq in Hx, Hy. exfalso.
  unfold key_leb in Hxy. rewrite Hx, Hy, key_compare_refl in Hxy.
  discriminate.
Qed.

Lemma sort_by_key_filter (k : sort_key_t) (l : list occurrence) :
  filter (fun o => key_eqb (sort_key o) k) (sort_by_key l)
  = filter (fun o => key_eqb (sort_key o) k) l.
Proof.
  induction l as [|x l IH]; [reflexivity|].
  cbn [sort_by_key fold_right]. rewrite insert_by_key_filter.
  cbn [filter]. fold (sort_by_key l). rewrite IH. reflexivity.
Qed.

Lemma strongly_sorted_nth (R : occurrence -> occurrence -> Prop)
    (l : list occurrence) :
  StronglySorted R l ->
  forall i j A B, (i < j)%nat ->
    nth_error l i = Some A -> nth_error l j = Some B -> R A B.
Proof.
  induction 1 as [|a l Hs IH Ha]; intros i j A B Hij HA HB.
  - destruct i; discriminate.
  - destruct j as [|j]; [lia|]. cbn in HB.
    destruct i as [|i]; cbn in HA.
    + injection HA as <-. rewrite Forall_forall in Ha.
      apply Ha. eapply nth_error_In. exact HB.
    + eapply IH; [|eassumption|eassumption]. lia.
Qed.

Lemma aggregate_is_sort (t p : list occurrence) :
  aggregate t p = sort_by_key (t ++ p).
Proof. unfold aggregate. destruct (t ++ p); reflexivity. Qed.

End Ordering.

Section FieldOrder.

Lemma key_le_lex_le (A B : occurrence) : key_le A B <-> lex_le A B.
Proof.
  unfold key_le, key_leb, sort_key, key_compare, lex_le, String.ltb.
  fold (page_of A). fold (page_of B).
  destruct (String.compare (file_path A) (file_path B)) eqn:Hf.
  - apply String.compare_eq_iff in Hf.
    destruct (Z.compare_spec (page_of A) (page_of B)) as [Hp|Hp|Hp].
    + destruct (Z.compare_spec (line_number A) (line_number B))
        as [Hl|Hl|Hl].
      * split; [|reflexivity]. intros _. right. split; [exact Hf|].
        right. split; [exact Hp | lia].
      * split; [|reflexivity]. intros _. right. split; [exact Hf|].
        right. split; [exact Hp | lia].
      * split; [discriminate|].
        intros [H1 | [_ [H2 | [_ H3]]]]; [discriminate | lia | lia].
    + split; [|reflexivity]. intros _. right. split; [exact Hf|].
      left. exact Hp.
    + split; [discriminate|].
      intros [H1 | [_ [H2 | [H3 _]]]]; [discriminate | lia | lia].
  - split; [|reflexivity]. intros _. left. reflexivity.
  - split; [discriminate|].
    intros [H1 | [H2 _]]; [discriminate|].
    rewrite H2, string_compare_refl in Hf. discriminate.
Qed.

Lemma key_eqb_same_place (f : string) (p l : Z) (x : occurrence) :
  key_eqb (sort_key x) (f, p, l) = same_place f p l x.
Proof.
  unfold same_place. fold (page_of x).
  destruct (key_eqb (sort_key x) (f, p, l)) eqn:H.
  - apply key_eqb_eq in H. unfold sort_key in H. fold (page_of x) in H.
    injection H as -> -> ->.
    rewrite String.eqb_refl, !Z.eqb_refl. reflexivity.
  - symmetry. apply not_true_is_false. intros Hs.
    apply andb_true_iff in Hs. destruct Hs as [Hs Hl].
    apply andb_true_iff in Hs. destruct Hs as [Hf Hp].
    apply String.eqb_eq in Hf. apply Z.eqb_eq in Hp, Hl.
    assert (Hk : key_eqb (sort_key x) (f, p, l) = true).
    { apply key_eqb_eq. unfold sort_key. fold (page_of x). congruence. }
    congruence.
Qed.

End FieldOrder.

(** C2.  The aggregated list is a rearrangement of the text results followed
    by the PDF results.  An occurrence that stands before another in it has
    the smaller file path, or the same file path and the smaller page
    number (0 for an absent one), or the same path and page and a line
    number that is smaller or equal; any two occurrences are comparable in
    that order; and occurrences with the same path, page and line keep the
    order they had before sorting. *)
Theorem aggregate_sorted_stable
    (text_file_results pdf_file_results : list occurrence) :
  let all_results := aggregate text_file_results pdf_file_results in
  Permutation (text_file_results ++ pdf_file_results) all_results
  /\ (forall (i j : nat) (A B : occurrence),
        (i < j)%nat ->
        nth_error all_results i = Some A ->
        nth_error all_results j = Some B ->
        lex_le A B)
  /\ (forall A B : occurrence, lex_le A B \/ lex_le B A)
  /\ (forall (f : string) (p l : Z),
        filter (same_place f p l) all_results
        = filter (same_place f p l) (text_file_results ++ pdf_file_results)).
Proof.
  cbv zeta. rewrite aggregate_is_sort. repeat split.
  - apply sort_by_key_perm.
  - intros i j A B Hij HA HB. apply key_le_lex_le.
    eapply (strongly_sorted_nth key_le); [apply sort_by_key_sorted | ..];
      eassumption.
  - intros A B.
    destruct (key_leb_total (sort_key A) (sort_key B)) as [H | H];
      [left | right]; apply key_le_lex_le; exact H.
  - intros f p l.
    rewrite <- !(filter_ext _ _ (key_eqb_same_place f p l)).
    apply sort_by_key_filter.
Qed.

Lemma aggregate_sorted_stable_witness :
  lex_le (mkOccurrence "/r/a.txt" None 2 "Hello World")
         (mkOccurrence "/r/c.pdf" (Some 1%Z) 3 "hello world order").
Proof.
  refine (proj1 (proj2 (aggregate_sorted_stable
                   [mkOccurrence "/r/e.log" None 1 "hello world once";
                    mkOccurrence "/r/a.txt" None 2 "Hello World"]
                   [mkOccurrence "/r/c.pdf" (Some 1%Z) 3 "hello world order"]))
            0%nat 1%nat _ _ _ eq_refl eq_refl).
  lia.
Defined.

(** ** Scanning lines and pages *)

Section Scanning.

Variables (pattern : Re.pattern) (path : string).

Lemma scan_lines_In (page : option Z) (lines : list string) :
  forall (start : Z) (o : occurrence),
    In o (scan_lines pattern path page start lines)
    <-> exists (i : nat) (line : string),
          nth_error lines i = Some line
          /\ Re.search pattern line = true
          /\ o = mkOccurrence path page (start + Z.of_nat i) (Str.strip line).
Proof.
  induction lines as [|l lines IH]; intros start o; cbn [scan_lines].
  - split; [intros [] | intros (i & line & H & _)]. destruct i; discriminate.
  - rewrite in_app_iff, IH. split.
    + intros [H | (i & line & Hn & Hs & Ho)].
      * destruct (Re.search pattern l) eqn:Hl; [|destruct H].
        destruct H as [<- | []]. exists 0%nat, l.
        rewrite Z.add_0_r. auto.
      * exists (S i), line. repeat split; try assumption.
        rewrite Ho. f_equal. lia.
    + intros (i & line & Hn & Hs & Ho). destruct i as [|i]; cbn in Hn.
      * injection Hn as ->. left. rewrite Hs, Ho, Z.add_0_r. left. reflexivity.
      * right. exists i, line. repeat split; try assumption.
        rewrite Ho. f_equal. lia.
Qed.

Lemma scan_lines_sorted (page : option Z) (lines : list string) :
  forall start : Z,
    StronglySorted line_increases (scan_lines pattern path page start lines).
Proof.
  induction lines as [|l lines IH]; intros start; cbn [scan_lines].
  - constructor.
  - destruct (Re.search pattern l); cbn [app]; [|apply IH].
    constructor; [apply IH|]. apply Forall_forall. intros o Ho.
    apply scan_lines_In in Ho. destruct Ho as (i & line & _ & _ & ->).
    unfold line_increases. cbn. lia.
Qed.

Lemma scan_pages_sound (ps : list page_result) :
  forall (n : Z) (o : occurrence),
    In o (fst (scan_pages pattern path n ps)) ->
    exists (p : nat) (text : string) (i : nat) (line : string),
      nth_error ps p = Some (Extracted text)
      /\ nth_error (Str.splitlines text) i = Some line
      /\ Re.search pattern line = true
      /\ o = mkOccurrence path (Some (n + Z.of_nat p + 1)%Z)
               (1 + Z.of_nat i) (Str.strip line).
Proof.
  induction ps as [|pg ps IH]; intros n o; cbn [scan_pages].
  - intros [].
  - destruct pg as [text|x]; [|intros []].
    destruct (scan_pages pattern path (n + 1) ps) as [later x] eqn:E.
    cbn [fst]. rewrite in_app_iff. intros [H | H].
    + destruct (text =? EmptyString)%string; [destruct H|].
      apply scan_lines_In in H. destruct H as (i & line & Hn & Hs & ->).
      exists 0%nat, text, i, line. rewrite Z.add_0_r. auto.
    + specialize (IH (n + 1)%Z o). rewrite E in IH.
      destruct (IH H) as (p & t & i & line & Hp & Hn & Hs & ->).
      exists (S p), t, i, line. repeat split; try assumption.
      do 2 f_equal. lia.
Qed.

Lemma scan_pages_complete (ps : list page_result) :
  forall (n : Z) (p : nat) (text : string) (i : nat) (line : string),
    readable_before p ps ->
    nth_error ps p = Some (Extracted text) ->
    nth_error (Str.splitlines text) i = Some line ->
    Re.search pattern line = true ->
    In (mkOccurrence path (Some (n + Z.of_nat p + 1)%Z) (1 + Z.of_nat i)
          (Str.strip line))
       (fst (scan_pages pattern path n ps)).
Proof.
  induction ps as [|pg ps IH]; intros n p text i line Hr Hp Hn Hs.
  - destruct p; discriminate.
  - cbn [scan_pages]. destruct p as [|p]; cbn in Hp.
    + injection Hp as ->.
      destruct (scan_pages pattern path (n + 1) ps) as [later x].
      cbn [fst]. apply in_or_app. left.
      destruct (text =? EmptyString)%string eqn:Ht.
      * apply String.eqb_eq in Ht. subst. destruct i; discriminate.
      * apply scan_lines_In. exists i, line. rewrite Z.add_0_r. auto.
    + destruct pg as [t|x].
      * assert (Hr' : readable_before p ps).
        { intros q y Hq. apply (Hr (S q) y). lia. }
        specialize (IH (n + 1)%Z p text i line Hr' Hp Hn Hs).
        destruct (scan_pages pattern path (n + 1) ps) as [later x].
        cbn [fst] in *. apply in_or_app. right.
        replace (n + Z.of_nat (S p) + 1)%Z with (n + 1 + Z.of_nat p + 1)%Z
          by lia.
        exact IH.
      * exfalso. apply (Hr 0%nat x); [lia | reflexivity].
Qed.

Lemma scan_lines_page_sorted (page : option Z) (lines : list string) :
  forall start : Z,
    StronglySorted page_line_increases
      (scan_lines pattern path page start lines).
Proof.
  induction lines as [|l lines IH]; intros start; cbn [scan_lines].
  - constructor.
  - destruct (Re.search pattern l); cbn [app]; [|apply IH].
    constructor; [apply IH|]. apply Forall_forall. intros o Ho.
    apply scan_lines_In in Ho. destruct Ho as (i & line & _ & _ & ->).
    right. unfold page_of. cbn. split; [reflexivity | lia].
Qed.

Lemma strongly_sorted_app (R : occurrence -> occurrence -> Prop)
    (l1 l2 : list occurrence) :
  StronglySorted R l1 -> StronglySorted R l2 ->
  (forall a b, In a l1 -> In b l2 -> R a b) ->
  StronglySorted R (l1 ++ l2).
Proof.
  induction 1 as [|a l1 Hs IH Ha]; intros H2 Hcross; cbn [app];
    [exact H2|].
  constructor.
  - apply IH; [exact H2|]. intros x y Hx. apply Hcross. right. exact Hx.
  - apply Forall_app. split; [exact Ha|].
    apply Forall_forall. intros y Hy. apply Hcross; [left; reflexivity|].
    exact Hy.
Qed.

Lemma scan_pages_sorted (ps : list page_result) :
  forall n : Z,
    StronglySorted page_line_increases (fst (scan_pages pattern path n ps)).
Proof.
  induction ps as [|pg ps IH]; intros n; cbn [scan_pages].
  - constructor.
  - destruct pg as [text|x]; [|constructor].
    pose proof (IH (n + 1)%Z) as Hl.
    pose proof (scan_pages_sound ps (n + 1)%Z) as Hsound.
    destruct (scan_pages pattern path (n + 1) ps) as [later x].
    cbn [fst] in *.
    destruct (text =? EmptyString)%string; [exact Hl|].
    apply strongly_sorted_app;
      [apply scan_lines_page_sorted | exact Hl |].
    intros a b Ha Hb.
    apply scan_lines_In in Ha. destruct Ha as (i & line & _ & _ & ->).
    destruct (Hsound b Hb) as (p & t & j & lb & _ & _ & _ & ->).
    left. unfold page_of. cbn. lia.
Qed.

Lemma scan_pages_stops_at_raise (x : pdf_exception)
    (rest : list page_result) (ps : list page_result) :
  forallb extracts ps = true ->
  forall n : Z,
    scan_pages pattern path n (ps ++ PageRaises x :: rest)
    = (fst (scan_pages pattern path n ps), Some x)
    /\ snd (scan_pages pattern path n ps) = None.
Proof.
  induction ps as [|pg ps IH]; intros Hps n; [split; reflexivity|].
  cbn [forallb] in Hps. apply andb_true_iff in Hps.
  destruct Hps as [Hpg Hps]. destruct pg as [text|y]; [|discriminate].
  cbn [app scan_pages].
  destruct (IH Hps (n + 1)%Z) as [H1 H2]. rewrite H1.
  destruct (scan_pages pattern path (n + 1) ps) as [later z].
  cbn [fst snd] in *. subst z. split; reflexivity.
Qed.



End Scanning.

(** ** The PDF pipeline (C3, C4, C5) *)

Section PdfPipeline.

Variables (w : world) (term : string).

Lemma matches_search (line phrase : string) :
  matches line phrase = Some (Re.search (literal_pattern phrase) line).
Proof. unfold matches. rewrite compile_phrase_literal. reflexivity. Qed.

Lemma search_single_pdf_total (filepath : string) :
  _search_single_pdf w filepath term
  = Some (search_single_pdf_body w (literal_pattern term) filepath).
Proof.
  unfold _search_single_pdf. rewrite compile_phrase_literal. reflexivity.
Qed.

Lemma pdf_occurrences_body (filepath : string) :
  pdf_occurrences w term filepath
  = fst (search_single_pdf_body w (literal_pattern term) filepath).
Proof.
  unfold pdf_occurrences. rewrite search_single_pdf_total.
  destruct (search_single_pdf_body _ _ _). reflexivity.
Qed.

(** One turn of the loop over the futures: name what the rest of the loop
    gives and put the worker's call in its place. *)
Ltac next_future IH i :=
  cbn [map collect_futures];
  specialize (IH (i + 1)%Z);
  destruct (collect_futures _ (i + 1) _) as [occs out];
  unfold submit at 1;
  rewrite search_single_pdf_total.

Lemma collect_futures_results (n : Z) (files : list string) :
  forall i : Z,
    fst (collect_futures n i (map (submit w term) files))
    = flat_map (pdf_occurrences w term) files.
Proof.
  induction files as [|f files IH]; intros i; [reflexivity|].
  cbn [flat_map]. rewrite pdf_occurrences_body. next_future IH i.
  destruct (search_single_pdf_body _ _ f) as [o written].
  cbn [fst] in *. rewrite IH. reflexivity.
Qed.




Lemma tool_warnings_app (a b : list output) :
  tool_warnings (a ++ b) = (tool_warnings a + tool_warnings b)%nat.
Proof. unfold tool_warnings. rewrite filter_app, length_app. reflexivity. Qed.

Lemma fallback_has_no_tool_warning (pattern : Re.pattern) (f : string) :
  tool_warnings (snd (pypdf2_fallback w pattern f)) = 0%nat.
Proof.
  unfold pypdf2_fallback. destruct (pypdf2 w f) as [x|ps].
  - destruct x; reflexivity.
  - destruct (scan_pages _ _ _ ps) as [oc [x|]]; [destruct x|]; reflexivity.
Qed.

Lemma collect_futures_warnings (n : Z) (files : list string) :
  tool_installed w = false ->
  forall i : Z,
    tool_warnings (snd (collect_futures n i (map (submit w term) files)))
    = List.length files.
Proof.
  intros Hw. induction files as [|f files IH]; intros i; [reflexivity|].
  next_future IH i.
  unfold search_single_pdf_body, subprocess_run. rewrite Hw.
  pose proof (fallback_has_no_tool_warning (literal_pattern term) f) as Hf.
  destruct (pypdf2_fallback w (literal_pattern term) f) as [o d].
  cbn [snd] in *. rewrite tool_warnings_app.
  change (tool_warnings (WarnToolMissing f :: d))
    with (S (tool_warnings d)).
  rewrite Hf. change (tool_warnings (PdfProgress (i + 1) n :: out))
    with (tool_warnings out).
  rewrite IH. reflexivity.
Qed.

Lemma search_pdfs_unfold (folder : string) :
  isdir w folder = true ->
  pdf_files (walk_pdf w folder) <> [] ->
  let files := pdf_files (walk_pdf w folder) in
  let n := Z.of_nat (List.length files) in
  search_pdfs w folder term
  = (fst (collect_futures n 0 (map (submit w term) files)),
     SearchingPdf term folder :: FoundPdfs n
       :: snd (collect_futures n 0 (map (submit w term) files)) ++ [Newline]).
Proof.
  intros Hd Hne. cbv zeta. unfold search_pdfs. rewrite Hd. cbn [negb].
  destruct (pdf_files (walk_pdf w folder)) as [|f files] eqn:E;
    [congruence|].
  destruct (collect_futures _ 0 (map (submit w term) (f :: files))).
  reflexivity.
Qed.

End PdfPipeline.

Section Unparseable.

Variables (w : world) (term : string).




End Unparseable.




(** C4.  When [pdftotext] delivers the text, the occurrences are exactly the
    matching lines of the whole output, each with page number 0 and its
    1-based position in that output.  When the tool is missing and PyPDF2
    lists the pages, every occurrence carries the 1-based number of its page
    and the 1-based position of its line within that page's text; and every
    matching line of a page that is reached without an exception is
    reported so. *)
Theorem pdf_numbering (w : world) (filepath term : string) :
  (forall text : string,
     subprocess_run w filepath = Completed text ->
     forall o : occurrence,
       In o (pdf_occurrences w term filepath)
       <-> exists (i : nat) (line : string),
             nth_error (Str.splitlines text) i = Some line
             /\ matches line term = Some true
             /\ o = mkOccurrence filepath (Some 0%Z) (1 + Z.of_nat i)
                      (Str.strip line))
  /\ (forall ps : list page_result,
        subprocess_run w filepath = FileNotFoundError ->
        pypdf2 w filepath = Pages ps ->
        (forall o : occurrence,
           In o (pdf_occurrences w term filepath) ->
           exists (p : nat) (text : string) (i : nat) (line : string),
             nth_error ps p = Some (Extracted text)
             /\ nth_error (Str.splitlines text) i = Some line
             /\ matches line term = Some true
             /\ o = mkOccurrence filepath (Some (Z.of_nat p + 1)%Z)
                      (1 + Z.of_nat i) (Str.strip line))
        /\ (forall (p : nat) (text : string) (i : nat) (line : string),
              readable_before p ps ->
              nth_error ps p = Some (Extracted text) ->
              nth_error (Str.splitlines text) i = Some line ->
              matches line term = Some true ->
              In (mkOccurrence filepath (Some (Z.of_nat p + 1)%Z)
                    (1 + Z.of_nat i) (Str.strip line))
                 (pdf_occurrences w term filepath))).
Proof.
  split.
  - intros text Hrun o. rewrite pdf_occurrences_body.
    unfold search_single_pdf_body. rewrite Hrun. cbn [fst].
    destruct (text =? EmptyString)%string eqn:Ht.
    + apply String.eqb_eq in Ht. subst. split; [intros []|].
      intros (i & line & Hn & _). destruct i; discriminate.
    + rewrite scan_lines_In. split; intros (i & line & Hn & Hs & Ho);
        exists i, line; rewrite matches_search in *;
        repeat split; congruence.
  - intros ps Hrun Hps. rewrite pdf_occurrences_body.
    unfold search_single_pdf_body, pypdf2_fallback. rewrite Hrun, Hps.
    pose proof (scan_pages_sound (literal_pattern term) filepath ps 0)
      as Hsound.
    pose proof (scan_pages_complete (literal_pattern term) filepath ps 0)
      as Hcomplete.
    destruct (scan_pages (literal_pattern term) filepath 0 ps)
      as [occs [x|]]; cbn [fst] in *.
    + split.
      * intros o Ho.
        destruct (Hsound o Ho) as (p & t & i & l & H1 & H2 & H3 & H4).
        rewrite Z.add_0_l in H4.
        exists p, t, i, l. rewrite matches_search. repeat split; congruence.
      * intros p t i l Hr Hp Hn Hm. rewrite matches_search in Hm.
        injection Hm as Hm. rewrite <- (Z.add_0_l (Z.of_nat p)).
        apply (Hcomplete p t i l); assumption.
    + split.
      * intros o Ho.
        destruct (Hsound o Ho) as (p & t & i & l & H1 & H2 & H3 & H4).
        rewrite Z.add_0_l in H4.
        exists p, t, i, l. rewrite matches_search. repeat split; congruence.
      * intros p t i l Hr Hp Hn Hm. rewrite matches_search in Hm.
        injection Hm as Hm. rewrite <- (Z.add_0_l (Z.of_nat p)).
        apply (Hcomplete p t i l); assumption.
Qed.

Lemma pdf_numbering_witness :
  In (mkOccurrence "/r/c.pdf" (Some 0%Z) 5 "Hello World again")
     (pdf_occurrences sample_world_with_tool "hello world" "/r/c.pdf")
  /\ In (mkOccurrence "/r/c.pdf" (Some 2%Z) 1 "Hello World again")
        (pdf_occurrences sample_world "hello world" "/r/c.pdf").
Proof.
  split.
  - apply (proj1 (pdf_numbering sample_world_with_tool "/r/c.pdf"
                    "hello world") _ eq_refl).
    exists 4%nat, "Hello World again". repeat split.
  - refine (proj2 (proj2 (pdf_numbering sample_world "/r/c.pdf"
                            "hello world") _ eq_refl eq_refl)
              1%nat "Hello World again" 0%nat "Hello World again"
              _ eq_refl eq_refl eq_refl).
    intros q x Hq. destruct q as [|q]; [discriminate | lia].
Defined.

(** With the tool missing, the two PDF files of the sample directory are
    each announced with a warning of their own. *)
Lemma missing_tool_warned_per_file :
  tool_installed sample_world = false
  /\ tool_warnings (snd (search_pdfs sample_world "/r" "Hello World")) = 2%nat.
Proof. split; reflexivity. Qed.

(** C5, as the program has it.  Without [pdftotext] every PDF file is
    handed to the PyPDF2 fallback, and the missing tool is reported once
    for each PDF file processed. *)
Theorem missing_tool_falls_back_and_warns_per_file
    (w : world) (folder term : string) :
  tool_installed w = false ->
  isdir w folder = true ->
  (forall filepath : string,
     _search_single_pdf w filepath term
     = Some (fst (pypdf2_fallback w (literal_pattern term) filepath),
             WarnToolMissing filepath
               :: snd (pypdf2_fallback w (literal_pattern term) filepath)))
  /\ tool_warnings (snd (search_pdfs w folder term))
     = List.length (pdf_files (walk_pdf w folder)).
Proof.
  intros Hw Hd. split.
  - intros filepath. rewrite search_single_pdf_total.
    unfold search_single_pdf_body, subprocess_run. rewrite Hw.
    destruct (pypdf2_fallback _ _ filepath). reflexivity.
  - destruct (pdf_files (walk_pdf w folder)) as [|f files] eqn:E.
    + unfold search_pdfs. rewrite Hd, E. reflexivity.
    + assert (Hne : pdf_files (walk_pdf w folder) <> []) by congruence.
      pose proof (search_pdfs_unfold w term folder Hd Hne) as Hs.
      cbv zeta in Hs. rewrite Hs. cbn [snd]. rewrite E.
      change (tool_warnings (?a :: ?b :: ?l)) with (tool_warnings l).
      rewrite tool_warnings_app, collect_futures_warnings by exact Hw.
      cbn. lia.
Qed.

Lemma missing_tool_falls_back_and_warns_per_file_witness :
  tool_warnings (snd (search_pdfs sample_world "/r" "Hello World"))
  = List.length (pdf_files (walk_pdf sample_world "/r")).
Proof.
  exact (proj2 (missing_tool_falls_back_and_warns_per_file sample_world "/r"
                  "Hello World" eq_refl eq_refl)).
Defined.

(** ** The text pipeline (C6, C9) *)

Section TextPipeline.

Variables (w : world) (pattern : Re.pattern) (exts : list string).

Lemma count_in_directory (files : list string) :
  forall total : Z,
    fold_left
      (fun total file_name =>
         if eligible exts file_name then (total + 1)%Z else total)
      files total
    = (total + Z.of_nat (List.length (filter (eligible exts) files)))%Z.
Proof.
  induction files as [|f files IH]; intros total; cbn [fold_left filter].
  - cbn. lia.
  - rewrite IH. destruct (eligible exts f); cbn [List.length]; lia.
Qed.

Lemma count_files_from (entries : list walk_entry) :
  forall total : Z,
    fold_left
      (fun total entry =>
         let '(_, _, files) := entry in
         fold_left
           (fun total file_name =>
              if eligible exts file_name then (total + 1)%Z else total)
           files total)
      entries total
    = (total + Z.of_nat (List.length (candidate_files exts entries)))%Z.
Proof.
  induction entries as [|[[root dirs] files] entries IH]; intros total;
    cbn [fold_left candidate_files flat_map].
  - cbn. lia.
  - rewrite IH, count_in_directory, length_app, length_map.
    fold (candidate_files exts entries). lia.
Qed.

Lemma count_files_is_length (entries : list walk_entry) :
  count_files exts entries
  = Z.of_nat (List.length (candidate_files exts entries)).
Proof. unfold count_files. rewrite count_files_from. lia. Qed.

Lemma advanced_refl (st : text_state) : advanced w pattern st st [].
Proof.
  unfold advanced. cbn. rewrite !app_nil_r, Z.add_0_r.
  repeat split; try reflexivity.
  - apply incl_refl.
  - intros p [].
Qed.

Lemma advanced_trans (a b c : text_state) (p q : list string) :
  advanced w pattern a b p -> advanced w pattern b c q ->
  advanced w pattern a c (p ++ q).
Proof.
  intros (F1 & N1 & P1 & O1 & D1) (F2 & N2 & P2 & O2 & D2).
  unfold advanced. rewrite F2, F1, N2, N1, P2, P1, flat_map_app, length_app.
  rewrite <- !app_assoc. repeat split; try reflexivity.
  - lia.
  - eapply incl_tran; eassumption.
  - intros x Hx. apply in_app_or in Hx. destruct Hx as [Hx | Hx].
    + eapply incl_tran; [apply D1; exact Hx | exact O2].
    + apply D2. exact Hx.
Qed.

Lemma visit_file_advances (total : Z) (root : string) (st : text_state)
    (file_name : string) :
  advanced w pattern st (visit_file w pattern exts total root st file_name)
    (map (Path.join root) (filter (eligible exts) [file_name])).
Proof.
  unfold visit_file. cbn [filter].
  destruct (eligible exts file_name); [|apply advanced_refl].
  destruct (read_file w pattern (Path.join root file_name)) as [occs d] eqn:E.
  unfold advanced. cbn [found_occurrences processed_files_count processed_files
    text_stdout map flat_map List.length]. rewrite E. cbn [fst].
  rewrite app_nil_r. split; [reflexivity|]. split; [lia|].
  split; [reflexivity|]. split; [apply incl_appl, incl_refl|].
  intros p [<- | []]. rewrite E. cbn [snd].
  apply incl_appr, incl_tl, incl_refl.
Qed.

Lemma directory_advances (total : Z) (root : string) (files : list string) :
  forall st : text_state,
    advanced w pattern st
      (fold_left (visit_file w pattern exts total root) files st)
      (map (Path.join root) (filter (eligible exts) files)).
Proof.
  induction files as [|f files IH]; intros st; cbn [fold_left].
  - apply advanced_refl.
  - pose proof (advanced_trans _ _ _ _ _
                  (visit_file_advances total root st f)
                  (IH (visit_file w pattern exts total root st f))) as H.
    rewrite <- map_app in H.
    replace (filter (eligible exts) [f] ++ filter (eligible exts) files)
      with (filter (eligible exts) (f :: files)) in H; [exact H|].
    cbn. destruct (eligible exts f); reflexivity.
Qed.

Lemma search_pass_advances (total : Z) (entries : list walk_entry) :
  forall st : text_state,
    advanced w pattern st (search_pass w pattern exts total entries st)
      (candidate_files exts entries).
Proof.
  unfold search_pass.
  induction entries as [|[[root dirs] files] entries IH]; intros st;
    cbn [fold_left candidate_files flat_map].
  - apply advanced_refl.
  - eapply advanced_trans; [apply directory_advances | apply IH].
Qed.

End TextPipeline.

Section TextRun.

Variables (w : world) (folder sentence : string) (exts : list string).

Lemma search_text_files_total :
  search_text_files w folder sentence exts
  = Some (search_text_files_body w (literal_pattern sentence) folder sentence
            exts).
Proof.
  unfold search_text_files. rewrite compile_phrase_literal. reflexivity.
Qed.

(** The shape of a run of [search_text_files] on an existing folder. *)
Lemma search_text_files_run :
  isdir w folder = true ->
  let t := search_text_files_body w (literal_pattern sentence) folder sentence
             exts in
  total_files_to_process t
  = Z.of_nat (List.length (candidate_files exts (walk_count w folder)))
  /\ In (FoundFiles (total_files_to_process t)) (text_output t)
  /\ ((total_files_to_process t = 0%Z
       /\ text_results t = [] /\ files_processed t = 0%Z
       /\ files_opened t = [])
      \/ (total_files_to_process t <> 0%Z
          /\ text_results t
             = flat_map (text_file_occurrences w sentence)
                 (candidate_files exts (walk_search w folder))
          /\ files_processed t
             = Z.of_nat
                 (List.length (candidate_files exts (walk_search w folder)))
          /\ files_opened t = candidate_files exts (walk_search w folder)
          /\ (forall p,
                In p (candidate_files exts (walk_search w folder)) ->
                incl (text_file_diagnostics w sentence p) (text_output t)))).
Proof.
  intros Hd. cbv zeta. unfold search_text_files_body. rewrite Hd.
  cbn [negb]. rewrite count_files_is_length.
  set (total := Z.of_nat _).
  destruct (total =? 0)%Z eqn:Ht.
  - cbn [total_files_to_process text_output text_results files_processed
           files_opened].
    split; [reflexivity|]. split; [cbn; auto|].
    left. apply Z.eqb_eq in Ht. auto.
  - cbn [total_files_to_process text_output text_results files_processed
           files_opened].
    split; [reflexivity|].
    pose proof (search_pass_advances w (literal_pattern sentence) exts total
                  (walk_search w folder)
                  (mkTextState [] 0%Z []
                     ([SearchingText sentence exts folder; CountingFiles]
                        ++ [FoundFiles total])))
      as (F & N & P & O & D).
    cbn [found_occurrences processed_files_count processed_files text_stdout
           app] in F, N, P, O, D.
    split.
    + apply in_or_app. left. apply O. cbn. auto.
    + right. apply Z.eqb_neq in Ht. split; [exact Ht|].
      cbn [app]. rewrite F, N, P. cbn [app]. repeat split; try reflexivity.
      intros p Hp x Hx. apply in_or_app. left. exact (D p Hp x Hx).
Qed.

End TextRun.






(** ** Where occurrences come from (C8) *)

Section Provenance.

Variables (w : world) (phrase : string).

Lemma scan_lines_well_placed (pattern : Re.pattern) (path : string)
    (page : option Z) (lines : list string) :
  Forall (well_placed path) (scan_lines pattern path page 1 lines).
Proof.
  apply Forall_forall. intros o Ho. apply scan_lines_In in Ho.
  destruct Ho as (i & line & _ & _ & ->).
  split; cbn [file_path line_number]; [reflexivity | lia].
Qed.

Lemma scan_pages_well_placed (pattern : Re.pattern) (path : string)
    (ps : list page_result) :
  Forall (well_placed path) (fst (scan_pages pattern path 0 ps)).
Proof.
  apply Forall_forall. intros o Ho. apply scan_pages_sound in Ho.
  destruct Ho as (p & t & i & line & _ & _ & _ & ->).
  split; cbn [file_path line_number]; [reflexivity | lia].
Qed.

Lemma text_file_scan (path : string) :
  Forall (well_placed path) (text_file_occurrences w phrase path)
  /\ StronglySorted line_increases (text_file_occurrences w phrase path).
Proof.
  unfold text_file_occurrences, read_file.
  destruct (read_text w path) as [e|lines failure]; cbn [fst].
  - split; constructor.
  - split; [apply scan_lines_well_placed | apply scan_lines_sorted].
Qed.

Lemma pdf_file_scan (path : string) :
  Forall (well_placed path) (pdf_occurrences w phrase path)
  /\ StronglySorted page_line_increases (pdf_occurrences w phrase path)
  /\ (forall text : string,
        subprocess_run w path = Completed text ->
        StronglySorted line_increases (pdf_occurrences w phrase path)).
Proof.
  rewrite pdf_occurrences_body. unfold search_single_pdf_body.
  destruct (subprocess_run w path) as [text| |e|e]; cbn [fst].
  - destruct (text =? EmptyString)%string.
    + split; [constructor|]. split; [constructor|]. intros _ _. constructor.
    + repeat split.
      * apply scan_lines_well_placed.
      * apply scan_lines_page_sorted.
      * intros _ _. apply scan_lines_sorted.
  - unfold pypdf2_fallback. destruct (pypdf2 w path) as [x|ps].
    + split; [constructor|]. split; [constructor|]. intros t Ht.
      discriminate.
    + pose proof (scan_pages_well_placed (literal_pattern phrase) path ps)
        as Hw.
      pose proof (scan_pages_sorted (literal_pattern phrase) path ps 0)
        as Hs.
      destruct (scan_pages (literal_pattern phrase) path 0 ps)
        as [occs [x|]]; cbn [fst] in *;
        (split; [exact Hw|]; split; [exact Hs|]; intros t Ht; discriminate).
  - split; [constructor|]. split; [constructor|]. intros t Ht. discriminate.
  - split; [constructor|]. split; [constructor|]. intros t Ht. discriminate.
Qed.

Lemma flat_map_paths (scan : string -> list occurrence)
    (files : list string) (o : occurrence) :
  (forall path, Forall (well_placed path) (scan path)) ->
  In o (flat_map scan files) -> In (file_path o) files.
Proof.
  intros Hscan Ho. apply in_flat_map in Ho. destruct Ho as (path & Hp & Ho).
  pose proof (Hscan path) as Hf. rewrite Forall_forall in Hf.
  destruct (Hf o Ho) as [-> _]. exact Hp.
Qed.

Lemma text_results_decompose (folder : string) (exts : list string) :
  exists opened : list string,
    incl opened (candidate_files exts (walk_search w folder))
    /\ text_results (search_text_files_body w (literal_pattern phrase) folder
                       phrase exts)
       = flat_map (text_file_occurrences w phrase) opened.
Proof.
  destruct (isdir w folder) eqn:Hd.
  - destruct (search_text_files_run w folder phrase exts Hd)
      as (_ & _ & [(_ & Hres & _) | (_ & Hres & _)]).
    + exists []. split; [intros x [] | exact Hres].
    + exists (candidate_files exts (walk_search w folder)).
      split; [apply incl_refl | exact Hres].
  - exists []. split; [intros x []|].
    unfold search_text_files_body. rewrite Hd. reflexivity.
Qed.

Lemma pdf_results_decompose (folder : string) :
  exists searched : list string,
    incl searched (pdf_files (walk_pdf w folder))
    /\ fst (search_pdfs w folder phrase)
       = flat_map (pdf_occurrences w phrase) searched.
Proof.
  destruct (isdir w folder) eqn:Hd.
  - destruct (pdf_files (walk_pdf w folder)) as [|f files] eqn:E.
    + exists []. split; [intros x []|].
      unfold search_pdfs. rewrite Hd, E. reflexivity.
    + exists (f :: files). split; [apply incl_refl|].
      assert (Hne : pdf_files (walk_pdf w folder) <> []) by congruence.
      pose proof (search_pdfs_unfold w phrase folder Hd Hne) as Hs.
      cbv zeta in Hs. rewrite Hs, E. cbn [fst].
      apply collect_futures_results.
  - exists []. split; [intros x []|].
    unfold search_pdfs. rewrite Hd. reflexivity.
Qed.

Lemma main_searched (folder : string) (t p all : list occurrence)
    (out : list output) :
  main w phrase folder = Some (Searched t p all out) ->
  t = text_results (search_text_files_body w (literal_pattern phrase) folder
                      phrase text_extensions)
  /\ p = fst (search_pdfs w folder phrase)
  /\ all = aggregate t p.
Proof.
  unfold main.
  destruct (Str.strip phrase =? EmptyString)%string; [discriminate|].
  destruct (Str.strip folder =? EmptyString)%string; [discriminate|].
  rewrite search_text_files_total.
  destruct (search_pdfs w folder phrase) as [pdf_results pdf_out].
  cbn [fst]. destruct (report w _) as [printed|]; [|discriminate].
  intros H. injection H as <- <- <- _. auto.
Qed.

End Provenance.

(** Read page by page, [/r/c.pdf] matches on line 3 of its first page and
    then on line 1 of its second page: the line numbers of one file go
    down. *)
Lemma fallback_line_numbers_restart :
  map line_number (pdf_occurrences sample_world "Hello World" "/r/c.pdf")
  = [3%Z; 1%Z]
  /\ ~ StronglySorted line_nondecreasing
         (pdf_occurrences sample_world "Hello World" "/r/c.pdf").
Proof.
  split; [reflexivity|]. intros H.
  change (pdf_occurrences sample_world "Hello World" "/r/c.pdf")
    with [mkOccurrence "/r/c.pdf" (Some 1%Z) 3 "hello world order";
          mkOccurrence "/r/c.pdf" (Some 2%Z) 1 "Hello World again"] in H.
  apply StronglySorted_inv in H. destruct H as [_ H].
  apply Forall_inv in H. unfold line_nondecreasing in H. cbn in H. lia.
Qed.

(** C8, as the program has it.  In a run that searches, the text results are
    the scans of files the text enumerator selected and the PDF results
    the scans of files the PDF enumerator selected, so every occurrence
    carries the path of an enumerated file.  In the scan of one file every
    occurrence has that file's path and a line number of at least 1; line
    numbers increase in a text file and in the output of [pdftotext]; in
    any PDF the pair of page number and line number increases, the line
    number starting again on each page read by PyPDF2. *)
Theorem occurrences_come_from_enumerated_files
    (w : world) (sentence folder : string)
    (t p all : list occurrence) (out : list output) :
  main w sentence folder = Some (Searched t p all out) ->
  (exists opened : list string,
     incl opened (candidate_files text_extensions (walk_search w folder))
     /\ t = flat_map (text_file_occurrences w sentence) opened)
  /\ (exists searched : list string,
        incl searched (pdf_files (walk_pdf w folder))
        /\ p = flat_map (pdf_occurrences w sentence) searched)
  /\ (forall o : occurrence,
        In o t ->
        In (file_path o)
           (candidate_files text_extensions (walk_search w folder)))
  /\ (forall o : occurrence,
        In o p -> In (file_path o) (pdf_files (walk_pdf w folder)))
  /\ (forall path : string,
        Forall (well_placed path) (text_file_occurrences w sentence path)
        /\ StronglySorted line_increases
             (text_file_occurrences w sentence path))
  /\ (forall path : string,
        Forall (well_placed path) (pdf_occurrences w sentence path)
        /\ StronglySorted page_line_increases
             (pdf_occurrences w sentence path)
        /\ (forall text : string,
              subprocess_run w path = Completed text ->
              StronglySorted line_increases
                (pdf_occurrences w sentence path))).
Proof.
  intros Hmain. apply main_searched in Hmain. destruct Hmain as (-> & -> & _).
  destruct (text_results_decompose w sentence folder text_extensions)
    as (opened & Hopened & Ht).
  destruct (pdf_results_decompose w sentence folder)
    as (searched & Hsearched & Hp).
  split; [exists opened; auto|]. split; [exists searched; auto|].
  split; [|split; [|split]].
  - intros o Ho. rewrite Ht in Ho. apply Hopened.
    eapply flat_map_paths; [|exact Ho].
    intros path. apply text_file_scan.
  - intros o Ho. rewrite Hp in Ho. apply Hsearched.
    eapply flat_map_paths; [|exact Ho].
    intros path. apply pdf_file_scan.
  - intros path. apply text_file_scan.
  - intros path. apply pdf_file_scan.
Qed.

Lemma occurrences_come_from_enumerated_files_witness :
  StronglySorted page_line_increases
    (pdf_occurrences sample_world "Hello World" "/r/c.pdf")
  /\ StronglySorted line_increases
       (text_file_occurrences sample_world "Hello World" "/r/a.txt").
Proof.
  destruct (main sample_world "Hello World" "/r")
    as [[out | t p all out] |] eqn:E.
  - vm_compute in E. discriminate.
  - destruct (occurrences_come_from_enumerated_files sample_world
                "Hello World" "/r" t p all out E)
      as (_ & _ & _ & _ & Htext & Hpdf).
    split; [apply (Hpdf "/r/c.pdf") | apply (Htext "/r/a.txt")].
  - vm_compute in E. discriminate.
Defined.

(** ** The report (C7) *)

Section Report.

Variable w : world.

Lemma report_line_ignores_location (path : string)
    (page page' : option Z) (line line' : Z) (content content' : string) :
  report_line w (mkOccurrence path page line content)
  = report_line w (mkOccurrence path page' line' content').
Proof. reflexivity. Qed.



Lemma report_lines_printed (items : list occurrence)
    (lines : list output) :
  report_lines w items = Some lines ->
  exists hyperlinks : list string,
    lines = map ResultLine hyperlinks
    /\ Forall2 (fun item h => report_line w item = Some h) items hyperlinks.
Proof.
  revert lines. induction items as [|item items IH]; intros lines;
    cbn [report_lines].
  - intros H. injection H as <-. exists []. split; constructor.
  - destruct (report_line w item) as [h|] eqn:Hh; [|discriminate].
    destruct (report_lines w items) as [ls|]; [|discriminate].
    cbn [option_map]. intros H. injection H as <-.
    destruct (IH ls eq_refl) as (hs & -> & Hall).
    exists (h :: hs). split; [reflexivity | constructor; assumption].
Qed.


End Report.

(** C7 at a failing input.  The report of the two matches of [/r/c.pdf],
    page 1 line 3 and page 2 line 1, has the header, one line for each
    match and the count; the two lines are the same hyperlink, made of the
    path and its colour code only: neither the page nor the line number is
    printed. *)
Theorem report_omits_location :
  report sample_world
    [mkOccurrence "/r/c.pdf" (Some 1%Z) 3 "hello world order";
     mkOccurrence "/r/c.pdf" (Some 2%Z) 1 "Hello World again"]
  = Some
      [ResultsHeader;
       ResultLine (ESC ++ "]8;;file:///r/c.pdf" ++ ESC ++ "\"
                   ++ ESC ++ "[33m/r/c.pdf" ++ ESC ++ "[0m"
                   ++ ESC ++ "]8;;" ++ ESC ++ "\")%string;
       ResultLine (ESC ++ "]8;;file:///r/c.pdf" ++ ESC ++ "\"
                   ++ ESC ++ "[33m/r/c.pdf" ++ ESC ++ "[0m"
                   ++ ESC ++ "]8;;" ++ ESC ++ "\")%string;
       FoundSummary 2].
Proof. reflexivity. Qed.

(** ** Input validation (C10) *)

Lemma lstrip_all_space (s : string) :
  Str.all_space s = true -> Str.lstrip s = EmptyString.
Proof.
  induction s as [|c s IH]; [reflexivity|].
  cbn [Str.all_space Str.lstrip]. intros H.
  apply andb_true_iff in H. destruct H as [Hc Hs].
  rewrite Hc. apply IH. exact Hs.
Qed.

(** C10.  A phrase that is not empty but made of whitespace only is refused
    like an empty one: the program prints that the search sentence cannot
    be empty and ends, whatever the directory and the files are; nothing is
    searched. *)
Theorem whitespace_phrase_is_rejected (w : world)
    (sentence_to_find folder_to_search : string) :
  sentence_to_find <> EmptyString ->
  Str.all_space sentence_to_find = true ->
  main w sentence_to_find folder_to_search = Some (Rejected [ErrSentenceEmpty]).
Proof.
  intros _ Hspace. unfold main, Str.strip.
  rewrite (lstrip_all_space _ Hspace). reflexivity.
Qed.

Lemma whitespace_phrase_is_rejected_witness :
  main sample_world " " "/r" = Some (Rejected [ErrSentenceEmpty]).
Proof.
  apply whitespace_phrase_is_rejected; [discriminate | reflexivity].
Defined.

(** * Further properties of the program *)

(** ** Validation and the shape of a run *)

Section Blank.

Lemma all_space_lstrip (s : string) :
  Str.all_space (Str.lstrip s) = Str.all_space s.
Proof.
  induction s as [|c s IH]; [reflexivity|].
  cbn [Str.lstrip]. destruct (Str.is_space c) eqn:Hc.
  - rewrite IH. cbn [Str.all_space]. rewrite Hc. reflexivity.
  - reflexivity.
Qed.

Lemma rstrip_empty (s : string) :
  Str.rstrip s = EmptyString <-> Str.all_space s = true.
Proof.
  destruct s as [|c s]; [cbn; tauto|].
  cbn [Str.rstrip]. destruct (Str.all_space (String c s)).
  - tauto.
  - split; discriminate.
Qed.

Lemma blank_all_space (s : string) : blank s = Str.all_space s.
Proof.
  unfold blank, Str.strip.
  destruct (Str.all_space s) eqn:Hs.
  - apply String.eqb_eq, rstrip_empty. rewrite all_space_lstrip. exact Hs.
  - apply String.eqb_neq. intros H. apply rstrip_empty in H.
    rewrite all_space_lstrip in H. congruence.
Qed.

End Blank.

Lemma main_run (w : world) (sentence folder : string) :
  Str.all_space sentence = false ->
  Str.all_space folder = false ->
  let body := search_text_files_body w (literal_pattern sentence) folder
                sentence text_extensions in
  let t := text_results body in
  let p := fst (search_pdfs w folder sentence) in
  main w sentence folder
  = option_map
      (fun printed =>
         Searched t p (aggregate t p)
           (text_output body ++ snd (search_pdfs w folder sentence)
              ++ printed))
      (report w (aggregate t p)).
Proof.
  intros Hs Hf. cbv zeta. unfold main.
  fold (blank sentence). fold (blank folder).
  rewrite !blank_all_space, Hs, Hf, search_text_files_total.
  destruct (search_pdfs w folder sentence). cbn [fst snd].
  destruct (report w _); reflexivity.
Qed.

Lemma main_blank (w : world) (sentence folder : string) :
  Str.all_space sentence = true \/ Str.all_space folder = true ->
  exists out, main w sentence folder = Some (Rejected out).
Proof.
  intros H. unfold main. fold (blank sentence). fold (blank folder).
  rewrite !blank_all_space.
  destruct (Str.all_space sentence); [eauto|].
  destruct H as [H | H]; [discriminate|]. rewrite H. eauto.
Qed.

Lemma main_not_blank (w : world) (sentence folder : string)
    (out : list output) :
  main w sentence folder = Some (Rejected out) ->
  Str.all_space sentence = true \/ Str.all_space folder = true.
Proof.
  intros H.
  destruct (Str.all_space sentence) eqn:Hs; [left; reflexivity|].
  destruct (Str.all_space folder) eqn:Hf; [right; reflexivity|].
  rewrite (main_run w sentence folder Hs Hf) in H.
  destruct (report w _); discriminate.
Qed.

(** X1.  The program refuses to search exactly when the phrase or the
    directory path has no character other than whitespace; a blank phrase
    is the one reported when both are blank. *)
Theorem main_refuses_exactly_blank_inputs
    (w : world) (sentence folder : string) :
  ((exists out, main w sentence folder = Some (Rejected out))
   <-> Str.all_space sentence = true \/ Str.all_space folder = true)
  /\ (Str.all_space sentence = true ->
      main w sentence folder = Some (Rejected [ErrSentenceEmpty])).
Proof.
  split.
  - split; [intros [out H]; exact (main_not_blank _ _ _ _ H)|].
    apply main_blank.
  - intros Hs. unfold main. fold (blank sentence).
    rewrite blank_all_space, Hs. reflexivity.
Qed.

Lemma main_refuses_exactly_blank_inputs_witness :
  exists out, main sample_world "Hello World" "  " = Some (Rejected out).
Proof.
  apply (proj1 (main_refuses_exactly_blank_inputs sample_world "Hello World"
                  "  ")).
  right. reflexivity.
Defined.

(** X2.  A phrase with something in it and a directory path of whitespace only:
    the program prints that the directory path cannot be empty and
    searches nothing. *)
Theorem blank_folder_is_rejected (w : world) (sentence folder : string) :
  Str.all_space sentence = false ->
  Str.all_space folder = true ->
  main w sentence folder = Some (Rejected [ErrDirectoryEmpty]).
Proof.
  intros Hs Hf. unfold main. fold (blank sentence). fold (blank folder).
  rewrite !blank_all_space, Hs, Hf. reflexivity.
Qed.

Lemma blank_folder_is_rejected_witness :
  main sample_world "Hello World" "  " = Some (Rejected [ErrDirectoryEmpty]).
Proof. apply blank_folder_is_rejected; reflexivity. Defined.

(** X3.  A directory that does not exist is not a refusal: both searches report
    the folder as not found, one after the other, and the program goes on
    to print that no file contains the sentence. *)
Theorem missing_folder_is_reported_twice
    (w : world) (sentence folder : string) :
  Str.all_space sentence = false ->
  Str.all_space folder = false ->
  isdir w folder = false ->
  main w sentence folder
  = Some (Searched [] [] []
            [FolderNotFound folder; FolderNotFound folder; NoMatches]).
Proof.
  intros Hs Hf Hd. rewrite (main_run w sentence folder Hs Hf).
  unfold search_text_files_body, search_pdfs. rewrite Hd. reflexivity.
Qed.

Lemma missing_folder_is_reported_twice_witness :
  main sample_world "Hello World" "/nowhere"
  = Some (Searched [] [] []
            [FolderNotFound "/nowhere"; FolderNotFound "/nowhere";
             NoMatches]).
Proof. apply missing_folder_is_reported_twice; reflexivity. Defined.

Lemma aggregate_length (t p : list occurrence) :
  List.length (aggregate t p) = (List.length t + List.length p)%nat.
Proof.
  rewrite aggregate_is_sort, <- length_app.
  symmetry. apply Permutation_length, sort_by_key_perm.
Qed.

(** X4.  The report comes last in what a searching run writes.  It is the
    no-match message when both searches found nothing; otherwise it is the
    header, one hyperlink line for each occurrence in sorted order, and a
    count that is the number of occurrences of the two searches together
    (two matches in one file count twice). *)
Theorem report_ends_the_run (w : world) (sentence folder : string)
    (t p all : list occurrence) (out : list output) :
  main w sentence folder = Some (Searched t p all out) ->
  (exists before printed : list output,
      out = before ++ printed /\ report w all = Some printed)
  /\ (t ++ p = [] -> report w all = Some [NoMatches])
  /\ (t ++ p <> [] ->
      exists hyperlinks : list string,
        Forall2 (fun item h => report_line w item = Some h) all hyperlinks
        /\ report w all
           = Some (ResultsHeader
                     :: map ResultLine hyperlinks
                     ++ [FoundSummary
                           (Z.of_nat (List.length t + List.length p))])).
Proof.
  intros Hmain.
  destruct (Str.all_space sentence) eqn:Hs.
  { destruct (main_blank w sentence folder (or_introl Hs)) as [o Ho].
    congruence. }
  destruct (Str.all_space folder) eqn:Hf.
  { destruct (main_blank w sentence folder (or_intror Hf)) as [o Ho].
    congruence. }
  rewrite (main_run w sentence folder Hs Hf) in Hmain.
  destruct (report w _) as [printed|] eqn:Hr; [|discriminate].
  cbn [option_map] in Hmain. injection Hmain as <- <- <- <-.
  revert Hr.
  set (t := text_results _). set (p := fst _). intros Hr.
  split; [exists (text_output
                    (search_text_files_body w (literal_pattern sentence)
                       folder sentence text_extensions)
                  ++ snd (search_pdfs w folder sentence)), printed;
          split; [rewrite app_assoc; reflexivity | exact Hr]|].
  split.
  - intros E. unfold aggregate. rewrite E. reflexivity.
  - intros Hne. pose proof (aggregate_length t p) as Hlen.
    destruct (aggregate t p) as [|o l] eqn:E.
    + exfalso. apply Hne. apply length_zero_iff_nil.
      rewrite length_app. cbn [List.length] in Hlen. lia.
    + unfold report in Hr |- *.
      destruct (report_lines w (o :: l)) as [lines|] eqn:Hl;
        [|discriminate].
      destruct (report_lines_printed w _ _ Hl) as (hs & -> & Hall).
      exists hs. split; [exact Hall|]. rewrite Hlen. reflexivity.
Qed.

Lemma report_ends_the_run_witness :
  exists hyperlinks : list string,
    Forall2 (fun item h => report_line sample_world item = Some h)
      (aggregate
         (text_results
            (search_text_files_body sample_world
               (literal_pattern "Hello World") "/r" "Hello World"
               text_extensions))
         (fst (search_pdfs sample_world "/r" "Hello World")))
      hyperlinks
    /\ List.length hyperlinks = 4%nat.
Proof.
  destruct (proj2 (proj2 (report_ends_the_run sample_world "Hello World"
                            "/r" _ _ _ _ eq_refl)))
    as (hs & Hall & Hr); [discriminate|].
  exists hs. split; [exact Hall|].
  apply Forall2_length in Hall. rewrite <- Hall. reflexivity.
Defined.



(** ** Progress lines and the empty selection *)

Section Progress.

Variables (w : world) (pattern : Re.pattern) (exts : list string) (total : Z).



Lemma map_seq_from (A : Type) (f : nat -> A) (a : nat) (b : nat) :
  forall s : nat,
    map f (seq (a + s) b) = map (fun k => f (a + k)%nat) (seq s b).
Proof.
  induction b as [|b IH]; intros s; [reflexivity|].
  cbn [seq map]. f_equal. rewrite <- IH. f_equal. f_equal. lia.
Qed.




End Progress.



(** X6.  When the counting pass selects no file, the search stops there: it
    announces 0 files, says that none matches the extensions, opens no file
    and writes no progress line. *)
Theorem nothing_selected_nothing_opened (w : world)
    (folder sentence : string) (exts : list string) :
  isdir w folder = true ->
  candidate_files exts (walk_count w folder) = [] ->
  search_text_files w folder sentence exts
  = Some (mkTextRun [] 0%Z 0%Z []
            [SearchingText sentence exts folder; CountingFiles;
             FoundFiles 0%Z; NoFilesFound]).
Proof.
  intros Hd Hnone. rewrite search_text_files_total.
  unfold search_text_files_body.
  rewrite Hd, count_files_is_length, Hnone. reflexivity.
Qed.

Lemma nothing_selected_nothing_opened_witness :
  search_text_files sample_world "/r" "Hello World" [".rs"]
  = Some (mkTextRun [] 0%Z 0%Z []
            [SearchingText "Hello World" [".rs"] "/r"; CountingFiles;
             FoundFiles 0%Z; NoFilesFound]).
Proof. apply nothing_selected_nothing_opened; reflexivity. Defined.

(** ** The PDF search as a whole *)

Section PdfRun.

Variables (w : world) (term : string).

Lemma pdf_progress_of_app (a b : list output) :
  pdf_progress_of (a ++ b) = pdf_progress_of a ++ pdf_progress_of b.
Proof. unfold pdf_progress_of. apply flat_map_app. Qed.

Lemma worker_writes_no_progress (pattern : Re.pattern) (f : string) :
  pdf_progress_of (snd (search_single_pdf_body w pattern f)) = [].
Proof.
  unfold search_single_pdf_body.
  destruct (subprocess_run w f); try reflexivity.
  unfold pypdf2_fallback. destruct (pypdf2 w f) as [x|ps].
  - destruct x; reflexivity.
  - destruct (scan_pages pattern f 0 ps) as [occs [x|]]; [destruct x|];
      reflexivity.
Qed.

Lemma collect_futures_counts_up (n : Z) (files : list string) :
  forall i : Z,
    pdf_progress_of (snd (collect_futures n i (map (submit w term) files)))
    = map (fun k => ((i + Z.of_nat k)%Z, n)) (seq 1 (List.length files)).
Proof.
  induction files as [|f files IH]; intros i; [reflexivity|].
  cbn [map collect_futures]. specialize (IH (i + 1)%Z).
  destruct (collect_futures n (i + 1) (map (submit w term) files))
    as [occs out].
  unfold submit at 1. rewrite search_single_pdf_total.
  pose proof (worker_writes_no_progress (literal_pattern term) f) as Hw.
  destruct (search_single_pdf_body w (literal_pattern term) f)
    as [o written].
  cbn [snd] in *. rewrite pdf_progress_of_app, Hw. cbn [app List.length seq].
  change (pdf_progress_of (PdfProgress ?a ?b :: out))
    with ((a, b) :: pdf_progress_of out).
  rewrite IH. cbn [map].
  replace (i + Z.of_nat 1)%Z with (i + 1)%Z by lia.
  apply (f_equal (cons ((i + 1)%Z, n))).
  change 2%nat with (1 + 1)%nat. rewrite map_seq_from.
  apply map_ext. intros k. f_equal. lia.
Qed.

Lemma tool_run_ignores_pypdf2 (reader : string -> reader_result)
    (f : string) :
  tool_installed w = true ->
  _search_single_pdf (with_pypdf2 w reader) f term
  = _search_single_pdf w f term.
Proof.
  intros Ht. unfold _search_single_pdf.
  destruct (compile_phrase term) as [pattern|]; [|reflexivity].
  unfold search_single_pdf_body, subprocess_run, with_pypdf2.
  cbn [tool_installed pdftotext]. rewrite Ht.
  destruct (pdftotext w f); reflexivity.
Qed.

Lemma tool_run_has_no_warning (pattern : Re.pattern) (f : string) :
  tool_installed w = true ->
  tool_warnings (snd (search_single_pdf_body w pattern f)) = 0%nat.
Proof.
  intros Ht. unfold search_single_pdf_body, subprocess_run. rewrite Ht.
  destruct (pdftotext w f); reflexivity.
Qed.

Lemma collect_futures_no_warning (n : Z) (files : list string) :
  tool_installed w = true ->
  forall i : Z,
    tool_warnings (snd (collect_futures n i (map (submit w term) files)))
    = 0%nat.
Proof.
  intros Ht. induction files as [|f files IH]; intros i; [reflexivity|].
  cbn [map collect_futures]. specialize (IH (i + 1)%Z).
  destruct (collect_futures n (i + 1) (map (submit w term) files))
    as [occs out].
  unfold submit at 1. rewrite search_single_pdf_total.
  pose proof (tool_run_has_no_warning (literal_pattern term) f Ht) as Hw.
  destruct (search_single_pdf_body w (literal_pattern term) f)
    as [o written].
  cbn [snd] in *. rewrite tool_warnings_app, Hw.
  change (tool_warnings (PdfProgress (i + 1) n :: out))
    with (tool_warnings out).
  rewrite IH. reflexivity.
Qed.

End PdfRun.

(** X7.  The PDF search of an existing folder returns the occurrences file by
    file in the order the walk listed the files, and its progress lines
    count 1, 2, ... up to the number of PDF files, each showing that
    number as the total. *)
Theorem pdf_results_follow_the_walk (w : world) (folder term : string) :
  isdir w folder = true ->
  let files := pdf_files (walk_pdf w folder) in
  fst (search_pdfs w folder term) = flat_map (pdf_occurrences w term) files
  /\ pdf_progress_of (snd (search_pdfs w folder term))
     = counting_up (List.length files) (Z.of_nat (List.length files)).
Proof.
  intros Hd files.
  destruct files as [|f rest] eqn:E; unfold files in E.
  - unfold search_pdfs. rewrite Hd, E. split; reflexivity.
  - assert (Hne : pdf_files (walk_pdf w folder) <> []) by congruence.
    pose proof (search_pdfs_unfold w term folder Hd Hne) as Hs.
    cbv zeta in Hs. rewrite Hs, E. cbn [fst snd]. split.
    + apply collect_futures_results.
    + change (pdf_progress_of (?a :: ?b :: ?l)) with (pdf_progress_of l).
      rewrite pdf_progress_of_app, collect_futures_counts_up.
      cbn [pdf_progress_of flat_map]. rewrite app_nil_r.
      unfold counting_up. apply map_ext. intros k. reflexivity.
Qed.

Lemma pdf_results_follow_the_walk_witness :
  pdf_progress_of (snd (search_pdfs sample_world "/r" "Hello World"))
  = [(1, 2); (2, 2)]%Z.
Proof.
  rewrite (proj2 (pdf_results_follow_the_walk sample_world "/r"
                    "Hello World" eq_refl)).
  reflexivity.
Defined.

(** X8.  With [pdftotext] installed PyPDF2 plays no part: the PDF search gives
    the same occurrences and writes the same lines whatever PyPDF2 would
    do with the files, it never warns about a missing tool, and a file on
    which the tool exits with an error yields nothing but one diagnostic,
    without a second attempt. *)
Theorem installed_tool_is_the_only_strategy (w : world)
    (folder term : string) (reader : string -> reader_result) :
  tool_installed w = true ->
  search_pdfs (with_pypdf2 w reader) folder term = search_pdfs w folder term
  /\ tool_warnings (snd (search_pdfs w folder term)) = 0%nat
  /\ (forall (filepath e : string),
        pdftotext w filepath = ToolExitNonZero e ->
        _search_single_pdf (with_pypdf2 w reader) filepath term
        = Some ([], [ErrPdftotext filepath e])).
Proof.
  intros Ht. split; [|split].
  - unfold search_pdfs. cbn [isdir walk_pdf with_pypdf2].
    destruct (isdir w folder); [|reflexivity]. cbn [negb].
    destruct (pdf_files (walk_pdf w folder)) as [|f files]; [reflexivity|].
    replace (map (submit (with_pypdf2 w reader) term) (f :: files))
      with (map (submit w term) (f :: files)); [reflexivity|].
    apply map_ext. intros p. unfold submit. symmetry.
    apply tool_run_ignores_pypdf2. exact Ht.
  - destruct (isdir w folder) eqn:Hd.
    + destruct (pdf_files (walk_pdf w folder)) as [|f files] eqn:E.
      * unfold search_pdfs. rewrite Hd, E. reflexivity.
      * assert (Hne : pdf_files (walk_pdf w folder) <> []) by congruence.
        pose proof (search_pdfs_unfold w term folder Hd Hne) as Hs.
        cbv zeta in Hs. rewrite Hs. cbn [snd].
        change (tool_warnings (?a :: ?b :: ?l)) with (tool_warnings l).
        rewrite tool_warnings_app, collect_futures_no_warning by exact Ht.
        reflexivity.
    + unfold search_pdfs. rewrite Hd. reflexivity.
  - intros filepath e He. rewrite tool_run_ignores_pypdf2 by exact Ht.
    rewrite search_single_pdf_total.
    unfold search_single_pdf_body, subprocess_run. rewrite Ht, He.
    reflexivity.
Qed.

Lemma installed_tool_is_the_only_strategy_witness :
  _search_single_pdf
    (with_pypdf2 sample_world_with_tool (fun _ => Pages [Extracted "hello"]))
    "/r/sub/d.PDF" "hello"
  = Some ([], [ErrPdftotext "/r/sub/d.PDF"
                 "returned non-zero exit status 1"]).
Proof.
  apply (proj2 (proj2 (installed_tool_is_the_only_strategy
                         sample_world_with_tool "/r" "hello"
                         (fun _ => Pages [Extracted "hello"]) eq_refl))).
  reflexivity.
Defined.

(** ** Page numbers *)

Lemma text_file_has_no_page (w : world) (phrase path : string) :
  Forall (fun o => page_number o = None)
    (text_file_occurrences w phrase path).
Proof.
  unfold text_file_occurrences, read_file.
  destruct (read_text w path) as [e|lines failure]; cbn [fst];
    [constructor|].
  apply Forall_forall. intros o Ho. apply scan_lines_In in Ho.
  destruct Ho as (i & line & _ & _ & ->). reflexivity.
Qed.

Lemma pdf_file_pages (w : world) (term path : string) :
  Forall (fun o => exists n : Z,
            page_number o = Some n
            /\ (if tool_installed w then n = 0%Z else (1 <= n)%Z))
    (pdf_occurrences w term path).
Proof.
  rewrite pdf_occurrences_body.
  unfold search_single_pdf_body, subprocess_run.
  destruct (tool_installed w).
  - destruct (pdftotext w path) as [text|e|e]; cbn [fst];
      try constructor.
    destruct (text =? EmptyString)%string; [constructor|].
    apply Forall_forall. intros o Ho. apply scan_lines_In in Ho.
    destruct Ho as (i & line & _ & _ & ->). exists 0%Z. auto.
  - unfold pypdf2_fallback. destruct (pypdf2 w path) as [x|ps];
      [constructor|].
    pose proof (scan_pages_sound (literal_pattern term) path ps 0) as Hs.
    destruct (scan_pages (literal_pattern term) path 0 ps) as [occs [x|]];
      cbn [fst] in *; apply Forall_forall; intros o Ho;
      destruct (Hs o Ho) as (p & t & i & line & _ & _ & _ & ->);
      eexists; (split; [reflexivity | lia]).
Qed.

Lemma Forall_flat_map_files (P : occurrence -> Prop)
    (scan : string -> list occurrence) (files : list string) :
  (forall path, Forall P (scan path)) -> Forall P (flat_map scan files).
Proof.
  intros H. induction files as [|f files IH]; [constructor|].
  cbn [flat_map]. apply Forall_app. split; [apply H | exact IH].
Qed.

(** X9.  In the results of a run the occurrences of text files have no page
    number, and those of PDF files always have one: 0 for every one of
    them when [pdftotext] is installed, at least 1 for every one of them
    when it is not. *)
Theorem page_numbers_tell_the_strategy (w : world)
    (sentence folder : string) (t p all : list occurrence)
    (out : list output) :
  main w sentence folder = Some (Searched t p all out) ->
  Forall (fun o => page_number o = None) t
  /\ Forall (fun o => exists n : Z,
               page_number o = Some n
               /\ (if tool_installed w then n = 0%Z else (1 <= n)%Z)) p.
Proof.
  intros Hmain. apply main_searched in Hmain. destruct Hmain as (-> & -> & _).
  destruct (text_results_decompose w sentence folder text_extensions)
    as (opened & _ & ->).
  destruct (pdf_results_decompose w sentence folder) as (searched & _ & ->).
  split; apply Forall_flat_map_files; intros path.
  - apply text_file_has_no_page.
  - apply pdf_file_pages.
Qed.

Lemma page_numbers_tell_the_strategy_witness :
  Forall (fun o => page_number o = None)
    (text_file_occurrences sample_world "Hello World" "/r/a.txt"
       ++ text_file_occurrences sample_world "Hello World" "/r/e.log").
Proof.
  refine (proj1 (page_numbers_tell_the_strategy sample_world "Hello World"
                   "/r" _ _ _ _ eq_refl)).
Defined.

(** ** The sorted list *)

Section SortedList.

Lemma insert_below_all (x : occurrence) (l : list occurrence) :
  Forall (key_le x) l -> insert_by_key x l = x :: l.
Proof.
  intros H. destruct l as [|y l]; [reflexivity|].
  cbn [insert_by_key]. apply Forall_inv in H. unfold key_le in H.
  rewrite H. reflexivity.
Qed.

Lemma sort_by_key_sorted_id (l : list occurrence) :
  StronglySorted key_le l -> sort_by_key l = l.
Proof.
  induction 1 as [|x l Hs IH Hx]; [reflexivity|].
  cbn [sort_by_key fold_right]. fold (sort_by_key l).
  rewrite IH. apply insert_below_all. exact Hx.
Qed.

Lemma key_leb_path (a b : occurrence) :
  key_le a b -> String.leb (file_path a) (file_path b) = true.
Proof.
  unfold key_le, key_leb, sort_key, key_compare, String.leb.
  destruct (String.compare (file_path a) (file_path b)); try reflexivity.
  discriminate.
Qed.

Lemma sorted_between (R : occurrence -> occurrence -> Prop)
    (l1 : list occurrence) (a : occurrence) (l2 : list occurrence)
    (b : occurrence) (l3 : list occurrence) :
  StronglySorted R (l1 ++ a :: l2 ++ b :: l3) ->
  Forall (fun x => R a x /\ R x b) l2.
Proof.
  induction l1 as [|y l1 IH]; cbn [app]; intros H.
  - apply StronglySorted_inv in H. destruct H as [Hs Ha].
    apply Forall_app in Ha. destruct Ha as [Ha _].
    clear -Hs Ha. induction l2 as [|x l2 IH]; [constructor|].
    cbn [app] in Hs. apply StronglySorted_inv in Hs.
    destruct Hs as [Hs Hx]. constructor.
    + split; [exact (Forall_inv Ha)|].
      rewrite Forall_forall in Hx. apply Hx.
      apply in_or_app. right. left. reflexivity.
    + apply IH; [exact Hs | exact (Forall_inv_tail Ha)].
  - apply StronglySorted_inv in H. apply IH. exact (proj1 H).
Qed.

End SortedList.

(** X10.  Sorting is idempotent: aggregating an aggregated list again, with
    nothing added, leaves it as it is. *)
Theorem aggregate_idempotent (t p : list occurrence) :
  aggregate (aggregate t p) [] = aggregate t p.
Proof.
  rewrite (aggregate_is_sort (aggregate t p) []), app_nil_r.
  apply sort_by_key_sorted_id. rewrite aggregate_is_sort.
  apply sort_by_key_sorted.
Qed.

(** X11.  In the sorted list the occurrences of one file stand together: between
    two occurrences with the same path there are only occurrences with
    that path. *)
Theorem occurrences_of_a_file_are_contiguous (t p : list occurrence)
    (l1 : list occurrence) (a : occurrence) (l2 : list occurrence)
    (b : occurrence) (l3 : list occurrence) :
  aggregate t p = l1 ++ a :: l2 ++ b :: l3 ->
  file_path a = file_path b ->
  Forall (fun x => file_path x = file_path a) l2.
Proof.
  intros Hall Hsame.
  pose proof (sort_by_key_sorted (t ++ p)) as Hs.
  rewrite <- aggregate_is_sort, Hall in Hs.
  apply sorted_between in Hs.
  eapply Forall_impl; [|exact Hs].
  intros x [Hax Hxb]. apply key_leb_path in Hax, Hxb.
  rewrite <- Hsame in Hxb. symmetry.
  apply String.leb_antisym; assumption.
Qed.

Lemma occurrences_of_a_file_are_contiguous_witness :
  Forall (fun x => file_path x = "/r/c.pdf")
    [mkOccurrence "/r/c.pdf" (Some 1%Z) 7 "two"].
Proof.
  exact (occurrences_of_a_file_are_contiguous
           [mkOccurrence "/r/a.txt" None 2 "zero"]
           [mkOccurrence "/r/c.pdf" (Some 2%Z) 1 "three";
            mkOccurrence "/r/c.pdf" (Some 1%Z) 7 "two";
            mkOccurrence "/r/c.pdf" (Some 1%Z) 3 "one"]
           [mkOccurrence "/r/a.txt" None 2 "zero"]
           (mkOccurrence "/r/c.pdf" (Some 1%Z) 3 "one")
           [mkOccurrence "/r/c.pdf" (Some 1%Z) 7 "two"]
           (mkOccurrence "/r/c.pdf" (Some 2%Z) 1 "three")
           [] eq_refl eq_refl).
Defined.

(** ** Line contents *)

Section Trimming.

Lemma lstrip_first (s : string) (c : ascii) :
  first_char (Str.lstrip s) = Some c -> Str.is_space c = false.
Proof.
  induction s as [|d s IH]; [discriminate|].
  cbn [Str.lstrip]. destruct (Str.is_space d) eqn:Hd; [exact IH|].
  cbn. intros H. injection H as <-. exact Hd.
Qed.

Lemma rstrip_first (s : string) (c : ascii) :
  first_char (Str.rstrip s) = Some c -> first_char s = Some c.
Proof.
  destruct s as [|d s]; [discriminate|].
  cbn [Str.rstrip]. destruct (Str.all_space (String d s));
    [discriminate | exact (fun H => H)].
Qed.

Lemma rstrip_last (s : string) (c : ascii) :
  last_char (Str.rstrip s) = Some c -> Str.is_space c = false.
Proof.
  induction s as [|d s IH]; [discriminate|].
  cbn [Str.rstrip]. destruct (Str.all_space (String d s)) eqn:Hall;
    [discriminate|].
  cbn [last_char]. destruct (Str.rstrip s) as [|e r] eqn:Er.
  - intros H. injection H as <-.
    cbn [Str.all_space] in Hall.
    assert (Hs : Str.all_space s = true) by (apply rstrip_empty; exact Er).
    rewrite Hs, andb_true_r in Hall. exact Hall.
  - exact IH.
Qed.

Lemma strip_trimmed (s : string) : trimmed (Str.strip s).
Proof.
  unfold trimmed, Str.strip. split; intros c H.
  - apply rstrip_first in H. exact (lstrip_first _ _ H).
  - exact (rstrip_last _ _ H).
Qed.

End Trimming.

(** X12.  Every occurrence of a run carries a line content without whitespace at
    its beginning or at its end, whichever search produced it. *)
Theorem line_contents_are_trimmed (w : world) (sentence folder : string)
    (t p all : list occurrence) (out : list output) :
  main w sentence folder = Some (Searched t p all out) ->
  Forall (fun o => trimmed (line_content o)) (t ++ p)
  /\ Forall (fun o => trimmed (line_content o)) all.
Proof.
  intros Hmain. apply main_searched in Hmain.
  destruct Hmain as (Ht & Hp & ->).
  assert (H : Forall (fun o => trimmed (line_content o)) (t ++ p)).
  { subst t p.
    destruct (text_results_decompose w sentence folder text_extensions)
      as (opened & _ & ->).
    destruct (pdf_results_decompose w sentence folder)
      as (searched & _ & ->).
    apply Forall_app. split; apply Forall_flat_map_files; intros path.
    - unfold text_file_occurrences, read_file.
      destruct (read_text w path) as [e|lines failure]; cbn [fst];
        [constructor|].
      apply Forall_forall. intros o Ho. apply scan_lines_In in Ho.
      destruct Ho as (i & line & _ & _ & ->). apply strip_trimmed.
    - rewrite pdf_occurrences_body. unfold search_single_pdf_body.
      destruct (subprocess_run w path) as [text| |e|e]; cbn [fst];
        try constructor.
      + destruct (text =? EmptyString)%string; [constructor|].
        apply Forall_forall. intros o Ho. apply scan_lines_In in Ho.
        destruct Ho as (i & line & _ & _ & ->). apply strip_trimmed.
      + unfold pypdf2_fallback. destruct (pypdf2 w path) as [x|ps];
          [constructor|].
        pose proof (scan_pages_sound (literal_pattern sentence) path ps 0)
          as Hs.
        destruct (scan_pages (literal_pattern sentence) path 0 ps)
          as [occs [x|]]; cbn [fst] in *; apply Forall_forall;
          intros o Ho;
          destruct (Hs o Ho) as (q & tx & i & line & _ & _ & _ & ->);
          apply strip_trimmed. }
  split; [exact H|].
  eapply Permutation_Forall; [|exact H].
  rewrite aggregate_is_sort. apply sort_by_key_perm.
Qed.

Lemma line_contents_are_trimmed_witness :
  trimmed "Hello World".
Proof.
  pose proof (proj1 (line_contents_are_trimmed sample_world "Hello World"
                       "/r" _ _ _ _ eq_refl)) as H.
  exact (Forall_inv H).
Defined.

(** ** The quoted path of a hyperlink *)

Lemma quote_char_alphabet (c : ascii) :
  all_chars url_char
    (String.concat EmptyString (map Quote.quote_byte (Quote.utf8 c)))
  = true.
Proof. destruct c as [[] [] [] [] [] [] [] []]; reflexivity. Qed.

Lemma quote_char_unreserved (c : ascii) :
  unreserved c = true ->
  String.concat EmptyString (map Quote.quote_byte (Quote.utf8 c))
  = String c EmptyString.
Proof.
  destruct c as [[] [] [] [] [] [] [] []]; vm_compute;
    solve [reflexivity | discriminate].
Qed.

Lemma all_chars_append (P : ascii -> bool) (a b : string) :
  all_chars P (a ++ b)%string = all_chars P a && all_chars P b.
Proof.
  induction a as [|c a IH]; [reflexivity|].
  cbn [String.append all_chars]. rewrite IH, andb_assoc. reflexivity.
Qed.

(** X13.  A quoted path is made of letters, digits, [_ . - ~ /] and percent
    signs only - in particular it holds no escape character that could end
    the hyperlink early - and a path made of letters, digits and
    [_ . - ~ /] is left as it is. *)
Theorem quoted_path_alphabet (path : string) :
  all_chars url_char (Quote.quote path) = true
  /\ (all_chars unreserved path = true -> Quote.quote path = path).
Proof.
  induction path as [|c path [IH1 IH2]]; [split; reflexivity|].
  cbn [Quote.quote all_chars]. split.
  - rewrite all_chars_append, quote_char_alphabet, IH1. reflexivity.
  - intros H. apply andb_true_iff in H. destruct H as [Hc Hp].
    rewrite (quote_char_unreserved c Hc), (IH2 Hp). reflexivity.
Qed.

Lemma quoted_path_alphabet_witness :
  Quote.quote "/r/sub/d.PDF" = "/r/sub/d.PDF".
Proof.
  apply (proj2 (quoted_path_alphabet "/r/sub/d.PDF")). reflexivity.
Defined.

(** ** File names, extensions and the two enumerators *)

Section Names.

Lemma append_nil_r (s : string) : (s ++ EmptyString)%string = s.
Proof. induction s as [|c s IH]; cbn; congruence. Qed.

Lemma append_assoc (a b c : string) :
  ((a ++ b) ++ c)%string = (a ++ (b ++ c))%string.
Proof. induction a as [|x a IH]; cbn; congruence. Qed.

Lemma length_append (a b : string) :
  String.length (a ++ b) = (String.length a + String.length b)%nat.
Proof. induction a as [|x a IH]; cbn; congruence. Qed.

Lemma lower_append (a b : string) :
  Str.lower (a ++ b) = (Str.lower a ++ Str.lower b)%string.
Proof. induction a as [|x a IH]; cbn; congruence. Qed.

Lemma lower_append_inv (s a b : string) :
  Str.lower s = (a ++ b)%string ->
  exists a' b' : string,
    s = (a' ++ b')%string /\ Str.lower a' = a /\ Str.lower b' = b.
Proof.
  revert s. induction a as [|x a IH]; intros s H.
  - exists EmptyString, s. auto.
  - destruct s as [|c s]; [discriminate|].
    cbn in H. injection H as Hc Hs.
    destruct (IH s Hs) as (a' & b' & -> & Ha & Hb).
    exists (String c a'), b'. cbn. rewrite Ha, Hc. auto.
Qed.

Lemma endswith_suffix (p s : string) :
  Str.endswith p s = true <-> exists pre : string, s = (pre ++ p)%string.
Proof.
  induction s as [|c s IH]; cbn [Str.endswith].
  - rewrite orb_false_r, String.eqb_eq. split.
    + intros <-. exists EmptyString. reflexivity.
    + intros [pre H]. destruct pre; [exact H | discriminate].
  - rewrite orb_true_iff, String.eqb_eq, IH. split.
    + intros [<- | [pre ->]].
      * exists EmptyString. reflexivity.
      * exists (String c pre). reflexivity.
    + intros [pre H]. destruct pre as [|d pre].
      * left. exact H.
      * right. injection H as _ H. exists pre. exact H.
Qed.

(** *** [rfind] *)

Lemma rfind_from_append (c : ascii) (a b : string) :
  forall i last : Z,
    Path.rfind_from c (a ++ b) i last
    = Path.rfind_from c b (i + Z.of_nat (String.length a))
        (Path.rfind_from c a i last).
Proof.
  induction a as [|x a IH]; intros i last.
  - cbn. rewrite Z.add_0_r. reflexivity.
  - cbn [String.append Path.rfind_from String.length]. rewrite IH.
    f_equal. lia.
Qed.

Lemma rfind_from_lacks (c : ascii) (s : string) :
  lacks c s = true ->
  forall i last : Z, Path.rfind_from c s i last = last.
Proof.
  unfold lacks. induction s as [|x s IH]; intros H i last; [reflexivity|].
  cbn [all_chars] in H. apply andb_true_iff in H. destruct H as [Hx Hs].
  cbn [Path.rfind_from]. apply negb_true_iff in Hx. rewrite Hx.
  apply IH. exact Hs.
Qed.

Lemma rfind_from_range (c : ascii) (s : string) :
  forall i last : Z,
    Path.rfind_from c s i last = last
    \/ (i <= Path.rfind_from c s i last < i + Z.of_nat (String.length s))%Z.
Proof.
  induction s as [|x s IH]; intros i last; [left; reflexivity|].
  cbn [Path.rfind_from String.length].
  destruct (IH (i + 1)%Z (if (x =? c)%char then i else last)) as [H | H].
  - rewrite H. destruct (x =? c)%char; [right; lia | left; reflexivity].
  - right. lia.
Qed.

Lemma rfind_range (c : ascii) (s : string) :
  (-1 <= Path.rfind c s < Z.of_nat (String.length s))%Z.
Proof.
  unfold Path.rfind.
  destruct (rfind_from_range c s 0 (-1)) as [H | H]; lia.
Qed.

(** The last occurrence, when the tail after it has none. *)
Lemma rfind_last (c : ascii) (a b : string) :
  lacks c b = true ->
  Path.rfind c (a ++ String c b) = Z.of_nat (String.length a).
Proof.
  intros Hb. unfold Path.rfind. rewrite rfind_from_append.
  cbn [Path.rfind_from]. rewrite Ascii.eqb_refl.
  rewrite rfind_from_lacks by exact Hb. lia.
Qed.

Lemma rfind_before (c : ascii) (a b : string) :
  lacks c b = true -> Path.rfind c (a ++ b) = Path.rfind c a.
Proof.
  intros Hb. unfold Path.rfind. rewrite rfind_from_append.
  apply rfind_from_lacks. exact Hb.
Qed.

(** *** Slices *)

Lemma substring_whole (s : string) (m : nat) :
  (String.length s <= m)%nat -> substring 0 m s = s.
Proof.
  revert m. induction s as [|c s IH]; intros m H.
  - destruct m; reflexivity.
  - destruct m as [|m]; cbn in H; [lia|].
    cbn. rewrite IH by lia. reflexivity.
Qed.

Lemma substring_skip (a b : string) (n m : nat) :
  substring (String.length a + n) m (a ++ b) = substring n m b.
Proof.
  induction a as [|c a IH]; [reflexivity|].
  cbn [String.length Nat.add String.append substring]. exact IH.
Qed.

Lemma substring_prefix (a b : string) :
  substring 0 (String.length a) (a ++ b) = a.
Proof.
  induction a as [|c a IH].
  - destruct b; reflexivity.
  - cbn. rewrite IH. reflexivity.
Qed.

Lemma slice_from_append (a b : string) :
  Path.slice_from (a ++ b) (Z.of_nat (String.length a)) = b.
Proof.
  unfold Path.slice_from. rewrite Nat2Z.id.
  rewrite <- (Nat.add_0_r (String.length a)) at 1.
  rewrite substring_skip. apply substring_whole.
  rewrite length_append. lia.
Qed.

Lemma slice_prefix (a b : string) :
  Path.slice (a ++ b) 0 (Z.of_nat (String.length a)) = a.
Proof.
  unfold Path.slice. rewrite Z.sub_0_r, Nat2Z.id. cbn [Z.to_nat].
  apply substring_prefix.
Qed.

Lemma substring_cut (p : string) :
  forall n m : nat,
    (String.length p <= n + m)%nat ->
    (substring 0 n p ++ substring n m p)%string = p.
Proof.
  induction p as [|c p IH]; intros n m H.
  - destruct n, m; reflexivity.
  - destruct n as [|n].
    + change (substring 0 0 (String c p)) with EmptyString.
      cbn [String.append Nat.add] in *. apply substring_whole. exact H.
    + cbn [substring String.append]. cbn in H. rewrite IH by lia.
      reflexivity.
Qed.

(** [root + ext == path], as the documentation of [os.path.splitext]
    promises. *)
Lemma splitext_rejoins (p : string) :
  (fst (Path.splitext p) ++ snd (Path.splitext p))%string = p.
Proof.
  unfold Path.splitext.
  destruct (_ && _) eqn:H; cbn [fst snd]; [|apply append_nil_r].
  unfold Path.slice, Path.slice_from. rewrite Z.sub_0_r. cbn [Z.to_nat].
  apply substring_cut. lia.
Qed.

End Names.

Lemma lower_char_keeps_dot_and_slash (c : ascii) :
  (Str.lower_char c =? ".")%char = (c =? ".")%char
  /\ (Str.lower_char c =? "/")%char = (c =? "/")%char.
Proof. destruct c as [[] [] [] [] [] [] [] []]; split; reflexivity. Qed.

Lemma lower_lacks (c : ascii) (s : string) :
  c = "."%char \/ c = "/"%char ->
  lacks c (Str.lower s) = lacks c s.
Proof.
  intros Hc. unfold lacks. induction s as [|x s IH]; [reflexivity|].
  cbn [Str.lower all_chars]. rewrite IH. f_equal. f_equal.
  destruct (lower_char_keeps_dot_and_slash x) as [Hd Hs].
  destruct Hc; subst c; assumption.
Qed.

(** X14.  A file the text enumerator selects has a name that ends, letter case
    apart, in one of the extensions of the filter. *)
Theorem selected_names_end_with_an_extension (exts : list string)
    (file_name : string) :
  eligible exts file_name = true ->
  exists ext : string,
    In ext exts /\ Str.endswith ext (Str.lower file_name) = true.
Proof.
  unfold eligible. intros H. apply existsb_exists in H.
  destruct H as (ext & Hin & Heq). apply String.eqb_eq in Heq.
  exists ext. split; [exact Hin|].
  apply endswith_suffix. exists (Str.lower (fst (Path.splitext file_name))).
  rewrite <- Heq, <- lower_append, splitext_rejoins. reflexivity.
Qed.

Lemma selected_names_end_with_an_extension_witness :
  exists ext : string,
    In ext text_extensions /\ Str.endswith ext (Str.lower "Notes.TXT") = true.
Proof.
  apply selected_names_end_with_an_extension. reflexivity.
Defined.

(** X15.  A file name the PDF enumerator takes is never selected by the text
    enumerator of the program: no file is searched by both. *)
Theorem pdf_names_are_not_text_names (file_name : string) :
  is_pdf_name file_name = true ->
  eligible text_extensions file_name = false.
Proof.
  unfold is_pdf_name. intros H. apply endswith_suffix in H.
  destruct H as [pre H]. apply lower_append_inv in H.
  destruct H as (a & b & -> & _ & Hb).
  assert (Hdot : exists tail : string,
             b = String "." tail /\ lacks "." tail = true
             /\ lacks "/" b = true).
  { destruct b as [|d [|x [|y [|z [|u b]]]]]; try discriminate.
    cbn in Hb. injection Hb as Hd Hx Hy Hz.
    assert (d = "."%char).
    { apply Ascii.eqb_eq.
      rewrite <- (proj1 (lower_char_keeps_dot_and_slash d)), Hd.
      reflexivity. }
    subst d. eexists. split; [reflexivity|].
    pose proof (lower_lacks "." (String x (String y (String z EmptyString)))
                  (or_introl eq_refl)) as H1.
    pose proof (lower_lacks "/"
                  (String "." (String x (String y (String z EmptyString))))
                  (or_intror eq_refl)) as H2.
    cbn [Str.lower] in H1, H2. rewrite Hx, Hy, Hz in H1, H2.
    rewrite <- H1, <- H2. split; reflexivity. }
  destruct Hdot as (tail & -> & Htail & Hslash).
  unfold eligible, Path.splitext.
  rewrite (rfind_last "." a tail Htail).
  rewrite (rfind_before "/" a (String "." tail) Hslash).
  destruct (_ && _); cbn [snd].
  - rewrite slice_from_append, Hb. reflexivity.
  - reflexivity.
Qed.

Lemma pdf_names_are_not_text_names_witness :
  eligible text_extensions "report.txt.PDF" = false.
Proof. apply pdf_names_are_not_text_names. reflexivity. Defined.

(** ** The extension of a joined path *)

Section JoinedPath.

Lemma rfind_from_shift (c : ascii) (s : string) :
  forall i last : Z,
    Path.rfind_from c s i last
    = if (Path.rfind c s <? 0)%Z then last else (i + Path.rfind c s)%Z.
Proof.
  unfold Path.rfind. induction s as [|x s IH]; intros i last;
    [reflexivity|].
  cbn [Path.rfind_from]. rewrite (IH (i + 1)%Z), (IH (0 + 1)%Z).
  pose proof (rfind_range c s) as Hr. unfold Path.rfind in Hr.
  destruct (Path.rfind_from c s 0 (-1) <? 0)%Z eqn:Hneg.
  - destruct (x =? c)%char; cbn; [f_equal; lia | reflexivity].
  - apply Z.ltb_ge in Hneg.
    destruct (0 + 1 + Path.rfind_from c s 0 (-1) <? 0)%Z eqn:H2;
      [apply Z.ltb_lt in H2; lia | lia].
Qed.

Lemma substring_enough (s : string) :
  forall n m1 m2 : nat,
    (String.length s <= n + m1)%nat -> (String.length s <= n + m2)%nat ->
    substring n m1 s = substring n m2 s.
Proof.
  induction s as [|c s IH]; intros n m1 m2 H1 H2.
  - destruct n, m1, m2; reflexivity.
  - destruct n as [|n].
    + rewrite !substring_whole by (cbn in *; lia). reflexivity.
    + cbn [substring]. apply IH; cbn in *; lia.
Qed.

Lemma lacks_first (c : ascii) (s : string) :
  lacks c s = true -> Str.startswith (String c EmptyString) s = false.
Proof.
  destruct s as [|x s]; [reflexivity|].
  unfold lacks. cbn [all_chars Str.startswith]. intros H.
  apply andb_true_iff in H. destruct H as [H _].
  apply negb_true_iff in H. rewrite Ascii.eqb_sym, H. reflexivity.
Qed.

(** Below a directory [dir/], the extension of [dir/name] is that of
    [name]. *)
Lemma splitext_below (dir name : string) :
  lacks "/" name = true ->
  snd (Path.splitext (dir ++ String "/" name))
  = snd (Path.splitext name).
Proof.
  intros Hname. unfold Path.splitext.
  rewrite (rfind_last "/" dir name Hname).
  replace (Path.rfind "/" name) with (-1)%Z
    by (unfold Path.rfind; rewrite rfind_from_lacks; auto).
  assert (Hdot : Path.rfind "." (dir ++ String "/" name)
                 = if (Path.rfind "." name <? 0)%Z then Path.rfind "." dir
                   else (Z.of_nat (String.length dir) + 1
                         + Path.rfind "." name)%Z).
  { unfold Path.rfind at 1. rewrite rfind_from_append.
    cbn [Path.rfind_from]. replace ("/" =? ".")%char with false by reflexivity.
    rewrite rfind_from_shift. fold (Path.rfind "." dir). reflexivity. }
  rewrite Hdot. clear Hdot.
  pose proof (rfind_range "." name) as Hn.
  pose proof (rfind_range "." dir) as Hd.
  set (d := Path.rfind "." name) in *.
  destruct (d <? 0)%Z eqn:Hneg.
  - apply Z.ltb_lt in Hneg.
    replace (Path.rfind "." dir >? Z.of_nat (String.length dir))%Z
      with false by (symmetry; rewrite Z.gtb_ltb; apply Z.ltb_ge; lia).
    replace (d >? -1)%Z with false
      by (symmetry; rewrite Z.gtb_ltb; apply Z.ltb_ge; lia).
    reflexivity.
  - apply Z.ltb_ge in Hneg.
    replace (Z.of_nat (String.length dir) + 1 + d
             >? Z.of_nat (String.length dir))%Z
      with true by (symmetry; apply Z.gtb_lt; lia).
    replace (d >? -1)%Z with true by (symmetry; apply Z.gtb_lt; lia).
    cbn [andb].
    assert (Hslice :
              Path.slice (dir ++ String "/" name)
                (Z.of_nat (String.length dir) + 1)
                (Z.of_nat (String.length dir) + 1 + d)
              = Path.slice name (-1 + 1) d).
    { unfold Path.slice.
      replace (dir ++ String "/" name)%string
        with ((dir ++ String "/" EmptyString) ++ name)%string
        by (rewrite append_assoc; reflexivity).
      replace (Z.to_nat (Z.of_nat (String.length dir) + 1))
        with (String.length (dir ++ String "/" EmptyString) + 0)%nat
        by (rewrite length_append; cbn; lia).
      rewrite substring_skip. f_equal. lia. }
    rewrite Hslice.
    destruct (existsb _ _); cbn [snd]; [|reflexivity].
    unfold Path.slice_from.
    replace (dir ++ String "/" name)%string
      with ((dir ++ String "/" EmptyString) ++ name)%string
      by (rewrite append_assoc; reflexivity).
    replace (Z.to_nat (Z.of_nat (String.length dir) + 1 + d))
      with (String.length (dir ++ String "/" EmptyString) + Z.to_nat d)%nat
      by (rewrite length_append; cbn; lia).
    rewrite substring_skip.
    apply substring_enough; rewrite ?length_append; lia.
Qed.

(** [os.path.join] below a file name from a walk, which has no
    separator in it. *)
Lemma splitext_join (root file_name : string) :
  lacks "/" file_name = true ->
  snd (Path.splitext (Path.join root file_name))
  = snd (Path.splitext file_name).
Proof.
  intros Hname. unfold Path.join.
  change "/"%string with (String "/" EmptyString).
  rewrite (lacks_first "/" file_name Hname).
  destruct (root =? EmptyString)%string eqn:Hroot.
  - apply String.eqb_eq in Hroot. subst. reflexivity.
  - cbn [orb]. destruct (Str.endswith (String "/" EmptyString) root) eqn:He.
    + apply endswith_suffix in He. destruct He as [dir ->].
      rewrite append_assoc. cbn [String.append].
      apply splitext_below. exact Hname.
    + cbn [String.append]. apply splitext_below. exact Hname.
Qed.

End JoinedPath.

(** X16.  The line printed for an occurrence of a text file that the
    enumerator selected under [root], when its name is UTF-8 on disk, is
    the hyperlink of its path in the colour that [COLOR_MAP] gives to the
    extension the file was selected by: the extension read off the joined
    path is the one read off the file name, and every extension of the
    text filter has a colour of its own.  The hyperlink is closed by
    ESC ] 8 ; ; ESC and a backslash. *)
Theorem text_results_are_coloured_by_extension (w : world)
    (root file_name : string) :
  lacks "/" file_name = true ->
  eligible text_extensions file_name = true ->
  surrogate_escaped w (Path.join root file_name) = false ->
  exists ext color : string,
    In ext text_extensions
    /\ Str.endswith ext (Str.lower file_name) = true
    /\ In (ext, color) COLOR_MAP
    /\ forall (page : option Z) (line : Z) (content : string),
         let f_path := Path.join root file_name in
         report_line w (mkOccurrence f_path page line content)
         = Some (ESC ++ "]8;;file://" ++ Quote.quote f_path ++ ESC ++ "\"
                 ++ (ESC ++ "[" ++ color ++ "m" ++ f_path ++ RESET_COLOR)
                 ++ ESC ++ "]8;;" ++ ESC ++ "\")%string.
Proof.
  intros Hname Hsel Hutf8. pose proof Hsel as Hext.
  unfold eligible in Hext. apply existsb_exists in Hext.
  destruct Hext as (ext & Hin & Heq). apply String.eqb_eq in Heq.
  assert (Hsuffix : Str.endswith ext (Str.lower file_name) = true).
  { apply endswith_suffix.
    exists (Str.lower (fst (Path.splitext file_name))).
    rewrite <- Heq, <- lower_append, splitext_rejoins. reflexivity. }
  exists ext, (dict_get COLOR_MAP ext "37").
  split; [exact Hin|]. split; [exact Hsuffix|]. split.
  - clear -Hin. cbn in Hin.
    repeat (destruct Hin as [<- | Hin];
            [cbn; repeat (first [left; reflexivity | right]) |]).
    destruct Hin.
  - intros page line content. cbv zeta. unfold report_line, quote_path.
    cbn [file_path]. rewrite Hutf8, (splitext_join root file_name Hname), Heq.
    reflexivity.
Qed.

Lemma text_results_are_coloured_by_extension_witness :
  exists ext color : string,
    In ext text_extensions
    /\ Str.endswith ext (Str.lower "Build.LOG") = true
    /\ In (ext, color) COLOR_MAP
    /\ forall (page : option Z) (line : Z) (content : string),
         let f_path := Path.join "/r/sub" "Build.LOG" in
         report_line sample_world (mkOccurrence f_path page line content)
         = Some (ESC ++ "]8;;file://" ++ Quote.quote f_path ++ ESC ++ "\"
                 ++ (ESC ++ "[" ++ color ++ "m" ++ f_path ++ RESET_COLOR)
                 ++ ESC ++ "]8;;" ++ ESC ++ "\")%string.
Proof.
  apply (text_results_are_coloured_by_extension sample_world);
    reflexivity.
Defined.

(** ** A page that cannot be read *)

(** X17.  Without [pdftotext], when PyPDF2 raises on a page after reading the
    pages before it, the search of the file stops at that page: it returns
    what the pages before it gave - the same occurrences as for a file
    that ends there - and writes the warning about the tool and one
    diagnostic for the exception. *)
Theorem page_failure_keeps_earlier_pages (w : world)
    (filepath term : string) (ps : list page_result) (x : pdf_exception)
    (rest : list page_result) :
  tool_installed w = false ->
  pypdf2 w filepath = Pages (ps ++ PageRaises x :: rest) ->
  forallb extracts ps = true ->
  _search_single_pdf w filepath term
  = Some (pdf_occurrences (with_pypdf2 w (fun _ => Pages ps)) term filepath,
          [WarnToolMissing filepath; pypdf2_diagnostic filepath x]).
Proof.
  intros Ht Hpages Hps.
  rewrite pdf_occurrences_body, search_single_pdf_total.
  unfold search_single_pdf_body, subprocess_run, pypdf2_fallback.
  cbn [tool_installed pypdf2 with_pypdf2]. rewrite Ht, Hpages.
  destruct (scan_pages_stops_at_raise (literal_pattern term) filepath x rest
              ps Hps 0) as [H1 H2].
  rewrite H1.
  destruct (scan_pages (literal_pattern term) filepath 0 ps) as [occs z].
  cbn [fst snd] in *. subst z. reflexivity.
Qed.

Lemma page_failure_keeps_earlier_pages_witness :
  _search_single_pdf
    (with_pypdf2 sample_world
       (fun _ => Pages [Extracted "Hello World";
                        PageRaises (OtherException "bad font");
                        Extracted "hello world"]))
    "/r/c.pdf" "hello world"
  = Some ([mkOccurrence "/r/c.pdf" (Some 1%Z) 1 "Hello World"],
          [WarnToolMissing "/r/c.pdf"; ErrPyPDF2 "/r/c.pdf" "bad font"]).
Proof.
  exact (page_failure_keeps_earlier_pages
           (with_pypdf2 sample_world
              (fun _ => Pages [Extracted "Hello World";
                               PageRaises (OtherException "bad font");
                               Extracted "hello world"]))
           "/r/c.pdf" "hello world" [Extracted "Hello World"]
           (OtherException "bad font") [Extracted "hello world"]
           eq_refl eq_refl eq_refl).
Defined.
